(** * pyBinSim: a shallow embedding of the convolution and filter-selection engine

    The development follows the four source files of the package:
    [inline_pose_parser.py], [filterstorage.py], [convolver.py] and
    [application.py].  Python objects become records, methods become
    functions that take the object and return the updated object, Python
    exceptions become the [Raise] branch of a result type, and warnings of
    the logging module become log records returned next to the value. *)

From Stdlib Require Import ZArith List Lia Reals Lra.
From stdpp Require Import base option list gmap strings.

Local Open Scope Z_scope.

(** ** Python runtime: exceptions, sequences, logging *)

Module Py.

Inductive exn :=
  | IndexError
  | ValueError
  | AttributeError
  | TypeError
  | KeyError
  | RuntimeError
  | ZeroDivisionError
  | ZMQError.

Inductive result (A : Type) :=
  | Ok (a : A)
  | Raise (e : exn).
Global Arguments Ok {A} a.
Global Arguments Raise {A} e.

Definition bind {A B} (m : result A) (k : A -> result B) : result B :=
  match m with
  | Ok a => k a
  | Raise e => Raise e
  end.

Definition is_ok {A} (m : result A) : bool :=
  match m with Ok _ => true | Raise _ => false end.

(** [l[i]] on a Python list or tuple: negative indices count from the end,
    anything outside [-len, len) raises IndexError. *)
Definition getitem {A} (l : list A) (i : Z) : result A :=
  let n := Z.of_nat (length l) in
  let j := if i <? 0 then i + n else i in
  if (0 <=? j) && (j <? n) then
    match l !! Z.to_nat j with
    | Some x => Ok x
    | None => Raise IndexError
    end
  else Raise IndexError.

(** [l[i] = x] on a Python list. *)
Definition setitem {A} (l : list A) (i : Z) (x : A) : result (list A) :=
  let n := Z.of_nat (length l) in
  let j := if i <? 0 then i + n else i in
  if (0 <=? j) && (j <? n) then Ok (<[Z.to_nat j := x]> l)
  else Raise IndexError.

(** [a // b] on sizes. *)
Definition floordiv (a b : nat) : result nat :=
  if (b =? 0)%nat then Raise ZeroDivisionError else Ok (a / b)%nat.

(** [[x] * n]: a negative count gives the empty list. *)
Definition repeat {A} (x : A) (n : Z) : list A := replicate (Z.to_nat n) x.

(** Records of the logging module.  Only warnings are kept: the info and
    debug calls of the program have no counterpart here. *)
Inductive log_record := Warning (message : string).

End Py.

Export Py.

#[global] Instance result_ret : MRet Py.result := fun A a => Py.Ok a.
#[global] Instance result_bind : MBind Py.result := fun A B k m => Py.bind m k.

(** ** Python str

    The methods the filter-list reader calls on a line.  A str is a
    string with one character per code point; the character classes are
    those of the code points below 256. *)

Module Str.

(** The line of a file that holds nothing but its line end. *)
Definition newline : string := String (Ascii.ascii_of_nat 10) EmptyString.

(** [c.isspace()]: tab to carriage return, the four separators, the
    space, next-line and the no-break space. *)
Definition isspace (c : Ascii.ascii) : bool :=
  let n := Ascii.nat_of_ascii c in
  ((9 <=? n) && (n <=? 13) || (28 <=? n) && (n <=? 32) || (n =? 133) || (n =? 160))%nat.

(** [c.isdigit()] of one character: the decimal digits and the
    superscripts two, three and one. *)
Definition isdigit_char (c : Ascii.ascii) : bool :=
  let n := Ascii.nat_of_ascii c in
  ((48 <=? n) && (n <=? 57) || (n =? 178) || (n =? 179) || (n =? 185))%nat.

(** [s.startswith(prefix)] *)
Definition startswith (s prefix : string) : bool := String.prefix prefix s.

(** The words of [s] after the characters of [word], a word being a
    longest run of characters that are not whitespace. *)
Fixpoint fields (word s : list Ascii.ascii) : list (list Ascii.ascii) :=
  match s with
  | [] => match word with [] => [] | _ => [word] end
  | c :: rest =>
      if isspace c then
        match word with
        | [] => fields [] rest
        | _ => word :: fields [] rest
        end
      else fields (word ++ [c]) rest
  end.

(** [s.split()] *)
Definition split (s : string) : list string :=
  map String.string_of_list_ascii (fields [] (String.list_ascii_of_string s)).

(** [s.isdigit()]: at least one character, and digits only. *)
Definition isdigit (s : string) : bool :=
  match String.list_ascii_of_string s with
  | [] => false
  | cs => forallb isdigit_char cs
  end.

End Str.

(** ** inline_pose_parser.py *)

Module InlinePoseParser.

Record t := mk {
  filtersUpdated : list bool;
  defaultValue : list Z;
  valueList : list (list Z);
}.

Definition init (maxChannels : Z) : t :=
  let defaultValue := [0; 0; 0; 0; 0; 0; 0; 0; 0] in
  {| filtersUpdated := Py.repeat true maxChannels;
     defaultValue := defaultValue;
     valueList := Py.repeat defaultValue maxChannels |}.

Definition parse_pose_input (self : t) (channel azimuth elevation : Z) : result t :=
  let poseData := [azimuth; elevation] in
  current ← getitem (valueList self) channel;
  if bool_decide (poseData <> take (length poseData) current) then
    updated ← setitem (filtersUpdated self) channel true;
    values ← setitem (valueList self) channel
                (poseData ++ drop (length poseData) (defaultValue self));
    Ok {| filtersUpdated := updated;
          defaultValue := defaultValue self;
          valueList := values |}
  else Ok self.

Definition is_filter_update_necessary (self : t) (channel : Z) : result bool :=
  getitem (filtersUpdated self) channel.

Definition get_current_values (self : t) (channel : Z) : result (t * list Z) :=
  updated ← setitem (filtersUpdated self) channel false;
  value ← getitem (valueList self) channel;
  Ok ({| filtersUpdated := updated;
         defaultValue := defaultValue self;
         valueList := valueList self |}, value).

(** A run of [parse_pose_input] calls, as the server issues them. *)
Fixpoint parse_pose_inputs (self : t) (calls : list (Z * Z * Z)) : result t :=
  match calls with
  | [] => Ok self
  | (channel, azimuth, elevation) :: rest =>
      self' ← parse_pose_input self channel azimuth elevation;
      parse_pose_inputs self' rest
  end.

(** What the constructor establishes and every method keeps. *)
Definition wf (maxChannels : Z) (self : t) : Prop :=
  Z.of_nat (length (filtersUpdated self)) = maxChannels /\
  Z.of_nat (length (valueList self)) = maxChannels /\
  defaultValue self = [0; 0; 0; 0; 0; 0; 0; 0; 0].

End InlinePoseParser.

(** ** Sample arithmetic

    The program computes on float32 samples and complex64 spectra through
    numpy and pyfftw.  The embedding takes that arithmetic as an interface:
    everything proved for an arbitrary instance holds for whatever the
    floating-point operations compute.  [RNumeric] below is the instance of
    exact real arithmetic, the one the crossfade windows are analysed in.
    The carriers are parameters of the class, so that the types of the
    objects below depend on the carriers only. *)

Class Numeric (sample cplx : Type) := {
  s_zero : sample;
  s_of_Z : Z -> sample;
  s_pi : sample;
  s_add : sample -> sample -> sample;
  s_mul : sample -> sample -> sample;
  s_div : sample -> sample -> sample;
  s_cos : sample -> sample;
  s_abs : sample -> sample;
  s_ltb : sample -> sample -> bool;
  (** [int(x)] *)
  s_int : sample -> result Z;
  c_zero : cplx;
  c_add : cplx -> cplx -> cplx;
  c_mul : cplx -> cplx -> cplx;
  c_scale : cplx -> sample -> cplx;
  (** real FFT of one frame of 2N samples, giving N+1 bins *)
  rfft : list sample -> list cplx;
  (** inverse real FFT of N+1 bins, giving 2N samples *)
  irfft : list cplx -> list sample;
  rfft_length : forall x, length (rfft x) = (length x / 2 + 1)%nat;
  irfft_length : forall y, length (irfft y) = (2 * (length y - 1))%nat;
}.

(** ** numpy arrays as lists (1-D) and lists of rows (2-D) *)

Module Np.

Section Arrays.
Context {A : Type}.

Definition zeros (n : nat) (z : A) : list A := replicate n z.
Definition zeros2 (rows cols : nat) (z : A) : list (list A) :=
  replicate rows (replicate cols z).

Definition has_shape (rows cols : nat) (a : list (list A)) : bool :=
  (length a =? rows)%nat && forallb (fun r => (length r =? cols)%nat) a.

(** [a[:, i]] *)
Fixpoint column (a : list (list A)) (i : nat) : result (list A) :=
  match a with
  | [] => Ok []
  | r :: rest =>
      match r !! i with
      | Some x => xs ← column rest i; Ok (x :: xs)
      | None => Raise IndexError
      end
  end.

Fixpoint chunks (rows cols : nat) (v : list A) : list (list A) :=
  match rows with
  | O => []
  | S rows' => take cols v :: chunks rows' cols (drop cols v)
  end.

(** [np.reshape(v, (rows, cols))] of a 1-D array, row-major. *)
Definition reshape (v : list A) (rows cols : nat) : result (list (list A)) :=
  if (length v =? rows * cols)%nat then Ok (chunks rows cols v)
  else Raise ValueError.

(** [np.concatenate((a, b), 0)] of two 2-D arrays with [cols] columns. *)
Definition concatenate0 (cols : nat) (a b : list (list A)) : result (list (list A)) :=
  if forallb (fun r => (length r =? cols)%nat) (a ++ b) then Ok (a ++ b)
  else Raise ValueError.

(** [np.roll(a, 1, axis=0)]: the last row moves to the front. *)
Definition roll1 (a : list (list A)) : list (list A) :=
  match length a with
  | O => a
  | S n => drop n a ++ take n a
  end.

(** [a[lo:hi, :] = rhs] on an array with [cols] columns, for
    [0 <= lo <= hi <= len(a)]: the right-hand side has [hi - lo] rows of
    [cols] entries, or one such row that is broadcast. *)
Definition assign_rows (cols : nat) (a : list (list A)) (lo hi : nat)
    (rhs : list (list A)) : result (list (list A)) :=
  let k := (hi - lo)%nat in
  if forallb (fun r => (length r =? cols)%nat) rhs then
    if (length rhs =? k)%nat then Ok (take lo a ++ rhs ++ drop hi a)
    else match rhs with
         | [r] => Ok (take lo a ++ replicate k r ++ drop hi a)
         | _ => Raise ValueError
         end
  else Raise ValueError.

(** Element-wise binary operation on two 1-D arrays of one length. *)
Definition map2 {B C} (f : A -> B -> C) (a : list A) (b : list B) : list C :=
  zip_with f a b.

End Arrays.

(** Element-wise operation of two 2-D arrays; a one-row operand is
    broadcast along axis 0, other row counts must agree. *)
Definition broadcast2 {A B C} (f : A -> B -> C)
    (a : list (list A)) (b : list (list B)) : result (list (list C)) :=
  if (length a =? length b)%nat then Ok (zip_with (zip_with f) a b)
  else match a, b with
       | [r], _ => Ok (fmap (fun rb => zip_with f r rb) b)
       | _, [r] => Ok (fmap (fun ra => zip_with f ra r) a)
       | _, _ => Raise ValueError
       end.

(** [np.sum(a, axis=0)] for an array with [cols] columns. *)
Definition sum0 {A} (add : A -> A -> A) (zero : A) (cols : nat)
    (a : list (list A)) : list A :=
  match a with
  | [] => replicate cols zero
  | r :: rest => foldl (zip_with add) r rest
  end.

End Np.

(** ** pose.py *)

Module Pose.

(** Modelled from the spec: pose.py is not among the sources.  A pose is
    the tuple of its integer fields, azimuth and elevation first; the key
    is a deterministic identifier derived from all fields, collision-free
    across distinct tuples, which the tuple itself is. *)
Record t := mk { fields : list Z }.

Definition from_filterValueList (filter_value_list : list Z) : t :=
  {| fields := filter_value_list |}.

(** [pose.orientation[0:2]] *)
Definition orientation02 (pose : t) : list Z := take 2 (fields pose).

Definition create_key (pose : t) : list Z := fields pose.

End Pose.

(** ** pyfftw and scipy objects the storage holds *)

Module Fftw.

Section Plan.
Context {sample cplx : Type} `{!Numeric sample cplx}.

(** A plan from [pyfftw.builders.rfft(np.zeros((rows, cols)), n, axis=1)]:
    every row is zero-extended (or cut) to [n] samples and transformed.
    The plan owns an input array, which a call with a new array overwrites
    and a call without one reuses. *)
Record t := mk {
  rows : nat;
  cols : nat;
  n : nat;
  input_array : list (list sample);
}.

Definition build (rows cols n : nat) : t :=
  {| rows := rows; cols := cols; n := n;
     input_array := Np.zeros2 rows n s_zero |}.

Definition frame (n : nat) (row : list sample) : list sample :=
  take n (row ++ replicate (n - length row) s_zero).

Definition call (plan : t) (input : option (list (list sample)))
  : result (t * list (list cplx)) :=
  match input with
  | Some a =>
      if Np.has_shape (rows plan) (cols plan) a then
        let internal := fmap (frame (n plan)) a in
        Ok ({| rows := rows plan; cols := cols plan; n := n plan;
               input_array := internal |}, fmap rfft internal)
      else Raise ValueError
  | None => Ok (plan, fmap rfft (input_array plan))
  end.

End Plan.

Global Arguments t : clear implicits.

End Fftw.

Module KDTree.

(** The tree is the list of its points; building one over no points
    raises ValueError. *)
Definition t : Type := list (list Z).

Definition build (data : list (list Z)) : result t :=
  match data with
  | [] => Raise ValueError
  | _ => Ok data
  end.

(** Squared Euclidean distance of two points given as coordinate lists. *)
Definition dist2 (p q : list Z) : Z :=
  foldr Z.add 0 (zip_with (fun a b => (a - b) * (a - b)) p q).

(** Index of a nearest point: the first among those of least distance. *)
Fixpoint nearest_from (q : list Z) (best : nat) (dbest : Z)
    (i : nat) (pts : list (list Z)) : nat :=
  match pts with
  | [] => best
  | p :: rest =>
      if dist2 p q <? dbest
      then nearest_from q i (dist2 p q) (S i) rest
      else nearest_from q best dbest (S i) rest
  end.

Definition query (tree : t) (q : list Z) : nat :=
  match tree with
  | [] => O
  | p :: rest => nearest_from q O (dist2 p q) 1%nat rest
  end.

End KDTree.

(** The cosine-square fade-out curve both the storage and the convolver
    compute: [np.square(np.cos(arange(N) / (N - 1) * (np.pi / 2)))]. *)
Definition cosine_square_window {sample cplx : Type} `{!Numeric sample cplx}
    (block_size : nat) : list sample :=
  fmap (fun i : nat =>
          let x := s_mul (s_div (s_of_Z (Z.of_nat i))
                                 (s_of_Z (Z.of_nat block_size - 1)))
                         (s_div s_pi (s_of_Z 2)) in
          s_mul (s_cos x) (s_cos x))
       (seq 0 block_size).

(** ** filterstorage.py: Filter *)

Module Filter.

Section Filter.
Context {sample cplx : Type} `{!Numeric sample cplx}.

Record t := mk {
  ir_blocks : nat;
  block_size : nat;
  TF_blocks : nat;
  TF_block_size : nat;
  IR_left_blocked : option (list (list sample));
  IR_right_blocked : option (list (list sample));
  filename : option string;
  fd_available : bool;
  TF_left_blocked : option (list (list cplx));
  TF_right_blocked : option (list (list cplx));
}.

Definition init (inputfilter : list (list sample)) (irBlocks block_size : nat)
    (filename : option string) : result t :=
  column_left ← Np.column inputfilter 0;
  left_blocked ← Np.reshape column_left irBlocks block_size;
  column_right ← Np.column inputfilter 1;
  right_blocked ← Np.reshape column_right irBlocks block_size;
  Ok {| ir_blocks := irBlocks;
        block_size := block_size;
        TF_blocks := irBlocks;
        TF_block_size := (block_size + 1)%nat;
        IR_left_blocked := Some left_blocked;
        IR_right_blocked := Some right_blocked;
        filename := filename;
        fd_available := false;
        TF_left_blocked := None;
        TF_right_blocked := None |}.

(** The plan is an object shared with the caller: the updated plan is
    returned along with the filter. *)
Definition storeInFDomain (self : t) (fftw_plan : Fftw.t sample) : result (t * (Fftw.t sample)) :=
  let cols := (block_size self + 1)%nat in
  let zeros := Np.zeros2 (ir_blocks self) cols c_zero in
  '(plan1, spectra_left) ← Fftw.call fftw_plan (IR_left_blocked self);
  tf_left ← Np.assign_rows cols zeros 0 (ir_blocks self) spectra_left;
  '(plan2, spectra_right) ← Fftw.call plan1 (IR_right_blocked self);
  tf_right ← Np.assign_rows cols zeros 0 (ir_blocks self) spectra_right;
  Ok ({| ir_blocks := ir_blocks self;
         block_size := block_size self;
         TF_blocks := TF_blocks self;
         TF_block_size := TF_block_size self;
         IR_left_blocked := None;
         IR_right_blocked := None;
         filename := filename self;
         fd_available := true;
         TF_left_blocked := Some tf_left;
         TF_right_blocked := Some tf_right |}, plan2).

(** The arrays of zeros handed out for a filter that is not in the
    frequency domain are real-valued in numpy; they stand here as complex
    zeros, which is what they become in every product they enter. *)
Definition getFilterFD (self : t)
  : list log_record * (option (list (list cplx)) * option (list (list cplx))) :=
  if negb (fd_available self) then
    ([Warning "FilterStorage: No frequency domain filter available!"],
     (Some (Np.zeros2 (ir_blocks self) (block_size self + 1) c_zero),
      Some (Np.zeros2 (ir_blocks self) (block_size self + 1) c_zero)))
  else ([], (TF_left_blocked self, TF_right_blocked self)).

Definition getFilter (self : t)
  : option (list (list sample)) * option (list (list sample)) :=
  (IR_left_blocked self, IR_right_blocked self).

Definition getFilterTD (self : t)
  : list log_record * (option (list (list sample)) * option (list (list sample))) :=
  if fd_available self then
    ([Warning "FilterStorage: No time domain filter available!"],
     (Some (Np.zeros2 (ir_blocks self) (block_size self) s_zero),
      Some (Np.zeros2 (ir_blocks self) (block_size self) s_zero)))
  else ([], (IR_left_blocked self, IR_right_blocked self)).

(** [np.multiply(row, window)] as it is assigned back into the row: a
    window of the length of the row, or of one sample that is broadcast;
    any other 1-D window does not fit. *)
Definition multiply_row (row window : list sample) : result (list sample) :=
  if (length window =? length row)%nat then Ok (zip_with s_mul row window)
  else match window with
       | [w] => Ok (map (fun x => s_mul x w) row)
       | _ => Raise ValueError
       end.

(** [blocks[i, :] = np.multiply(blocks[i, :], window)]; None cannot be
    subscripted. *)
Definition fade_block (blocks : option (list (list sample))) (i : Z)
    (window : list sample) : result (list (list sample)) :=
  match blocks with
  | None => Raise TypeError
  | Some a =>
      row ← getitem a i;
      faded ← multiply_row row window;
      setitem a i faded
  end.

Definition with_blocks (self : t) (left_blocked right_blocked : list (list sample)) : t :=
  {| ir_blocks := ir_blocks self;
     block_size := block_size self;
     TF_blocks := TF_blocks self;
     TF_block_size := TF_block_size self;
     IR_left_blocked := Some left_blocked;
     IR_right_blocked := Some right_blocked;
     filename := filename self;
     fd_available := fd_available self;
     TF_left_blocked := TF_left_blocked self;
     TF_right_blocked := TF_right_blocked self |}.

Definition apply_fadeout (self : t) (window : list sample) : result t :=
  left_blocked ← fade_block (IR_left_blocked self)
                   (Z.of_nat (ir_blocks self) - 1) window;
  right_blocked ← fade_block (IR_right_blocked self)
                    (Z.of_nat (ir_blocks self) - 1) window;
  Ok (with_blocks self left_blocked right_blocked).

Definition apply_fadein (self : t) (window : list sample) : result t :=
  left_blocked ← fade_block (IR_left_blocked self) 0 window;
  right_blocked ← fade_block (IR_right_blocked self) 0 window;
  Ok (with_blocks self left_blocked right_blocked).

End Filter.

Global Arguments t : clear implicits.

End Filter.

Module FilterType.
Inductive t := Undefined | Filter | LateReverbFilter | Directivity.
#[global] Instance eq_dec : EqDecision t.
Proof. solve_decision. Defined.
End FilterType.

(** ** filterstorage.py: FilterStorage *)

Module FilterStorage.

Section FilterStorage.
Context {sample cplx : Type} `{!Numeric sample cplx}.

(** [sf.read(path, dtype='float32')]: the decoded frames of a sound file,
    one row per frame, or the error of a missing or unreadable file. *)
Variable sf_read : string -> result (list (list sample)).

(** Attributes the constructor sets only under [useHeadphoneFilter] or
    [useSplittedFilters] are optional; reading an unset one raises
    AttributeError.  The three trees are [0] until [load_filters] has run. *)
Record t := mk {
  ir_size : nat;
  ir_blocks : nat;
  block_size : nat;
  filter_fftw_plan : Fftw.t sample;
  default_filter : Filter.t sample cplx;
  crossFadeOut : list sample;
  crossFadeIn : list sample;
  useHeadphoneFilter : bool;
  headPhoneFilterSize : option nat;
  headphone_ir_blocks : option nat;
  hp_filter_fftw_plan : option (Fftw.t sample);
  useSplittedFilters : bool;
  lateReverbSize : option nat;
  late_ir_blocks : option nat;
  late_filter_fftw_plan : option (Fftw.t sample);
  default_late_reverb_filter : option (Filter.t sample cplx);
  directivitySize : nat;
  dir_ir_blocks : nat;
  default_directivity_filter : Filter.t sample cplx;
  headphone_filter : option (Filter.t sample cplx);
  filter_dict : gmap (list Z) (Filter.t sample cplx);
  late_reverb_filter_dict : gmap (list Z) (Filter.t sample cplx);
  directivity_dict : gmap (list Z) (Filter.t sample cplx);
  filter_arr : list (list Z);
  late_reverb_arr : list (list Z);
  directivity_arr : list (list Z);
  filter_tree : option KDTree.t;
  late_reverb_tree : option KDTree.t;
  directivity_tree : option KDTree.t;
}.

Definition attr {A} (field : option A) : result A :=
  match field with
  | Some a => Ok a
  | None => Raise AttributeError
  end.

(** [current_filter[:size]] *)
Definition shorten (current_filter : list (list sample)) (size : nat) :=
  take size current_filter.

(** [np.concatenate((current_filter, np.zeros((size - n, 2))), 0)] *)
Definition fill_up (current_filter : list (list sample)) (size : nat) :=
  Np.concatenate0 2 current_filter
    (Np.zeros2 (size - length current_filter) 2 s_zero).

Definition load_filter (self : t) (filter_path : string) (filter_type : FilterType.t)
  : result (list log_record * list (list sample)) :=
  current_filter ←
    (if bool_decide (filter_type <> FilterType.Directivity) then sf_read filter_path
     else frames ← sf_read filter_path;
          Ok (map (fun row : list sample => row ++ row) frames));
  let filter_size0 := length current_filter in
  '(log1, filled) ←
    (if bool_decide (filter_type = FilterType.Filter) then
       if (filter_size0 <? ir_size self)%nat then
         padded ← fill_up current_filter (ir_size self);
         Ok ([Warning "Filter too short: Fill up with zeros"], padded)
       else Ok ([], current_filter)
     else Ok ([], current_filter));
  match filter_type with
  | FilterType.Filter =>
      if (ir_size self <? filter_size0)%nat then
        Ok (log1 ++ [Warning "Filter too long: shorten"],
            shorten filled (ir_size self))
      else Ok (log1, filled)
  | FilterType.LateReverbFilter =>
      size ← attr (lateReverbSize self);
      if (size <? filter_size0)%nat then
        Ok (log1 ++ [Warning "Reverb Filter too long: shorten"],
            shorten filled size)
      else Ok (log1, filled)
  | FilterType.Directivity =>
      if (directivitySize self <? filter_size0)%nat then
        Ok (log1 ++ [Warning "Directivity filter too long: shorten"],
            shorten filled (directivitySize self))
      else if (filter_size0 <? directivitySize self)%nat then
        padded ← fill_up filled (directivitySize self);
        Ok (log1 ++ [Warning "Directivity filter too short: Fill up with zeroes"],
            padded)
      else Ok (log1, filled)
  | FilterType.Undefined => Ok (log1, filled)
  end.

(** The fields a loop iteration of [load_filters] writes. *)
Definition with_filter (self : t) (plan : Fftw.t sample) (key : list Z)
    (current_filter : Filter.t sample cplx) (coord : list Z) : t :=
  let '(mk a b c _ e f g h i j k l m n o p q r s u v w x y z aa ab ac ad) := self in
  mk a b c plan e f g h i j k l m n o p q r s u
     (<[key := current_filter]> v) w x (y ++ [coord]) z aa ab ac ad.

Definition with_late_reverb (self : t) (plan : Fftw.t sample) (key : list Z)
    (current_filter : Filter.t sample cplx) (coord : list Z) : t :=
  let '(mk a b c d e f g h i j k l m n _ p q r s u v w x y z aa ab ac ad) := self in
  mk a b c d e f g h i j k l m n (Some plan) p q r s u
     v (<[key := current_filter]> w) x y (z ++ [coord]) aa ab ac ad.

Definition with_directivity (self : t) (plan : Fftw.t sample) (key : list Z)
    (current_filter : Filter.t sample cplx) (coord : list Z) : t :=
  let '(mk a b c _ e f g h i j k l m n o p q r s u v w x y z aa ab ac ad) := self in
  mk a b c plan e f g h i j k l m n o p q r s u
     v w (<[key := current_filter]> x) y z (aa ++ [coord]) ab ac ad.

Definition with_trees (self : t) (ft lt dt : KDTree.t) : t :=
  let '(mk a b c d e f g h i j k l m n o p q r s u v w x y z aa _ _ _) := self in
  mk a b c d e f g h i j k l m n o p q r s u v w x y z aa
     (Some ft) (Some lt) (Some dt).

(** One iteration of the loop of [load_filters] over an entry that
    [parse_filter_list] has yielded. *)
Definition load_entry (self : t) (entry : Pose.t * string * FilterType.t) : result t :=
  let '(filter_pose, filter_path, filter_type) := entry in
  match filter_type with
  | FilterType.Undefined => Ok self
  | FilterType.Filter =>
      '(_, data) ← load_filter self filter_path filter_type;
      created ← Filter.init data (ir_blocks self) (block_size self) None;
      '(current_filter, plan) ← Filter.storeInFDomain created (filter_fftw_plan self);
      let key := Pose.create_key filter_pose in
      Ok (with_filter self plan key current_filter (Pose.orientation02 filter_pose))
  | FilterType.LateReverbFilter =>
      '(_, data) ← load_filter self filter_path filter_type;
      blocks ← attr (late_ir_blocks self);
      created ← Filter.init data blocks (block_size self) None;
      late_plan ← attr (late_filter_fftw_plan self);
      '(current_filter, plan) ← Filter.storeInFDomain created late_plan;
      let key := Pose.create_key filter_pose in
      Ok (with_late_reverb self plan key current_filter (Pose.orientation02 filter_pose))
  | FilterType.Directivity =>
      '(_, data) ← load_filter self filter_path filter_type;
      created ← Filter.init data (dir_ir_blocks self) (block_size self) None;
      '(current_filter, plan) ← Filter.storeInFDomain created (filter_fftw_plan self);
      let key := Pose.create_key filter_pose in
      Ok (with_directivity self plan key current_filter (Pose.orientation02 filter_pose))
  end.

Fixpoint load_entries (self : t) (parsed : list (Pose.t * string * FilterType.t))
  : result t :=
  match parsed with
  | [] => Ok self
  | entry :: rest => self' ← load_entry self entry; load_entries self' rest
  end.

(** [load_filters], given the list [parse_filter_list] yields. *)
Definition load_filters (self : t)
    (parsed_filter_list : list (Pose.t * string * FilterType.t)) : result t :=
  loaded ← load_entries self parsed_filter_list;
  ft ← KDTree.build (filter_arr loaded);
  lt ← KDTree.build (late_reverb_arr loaded);
  dt ← KDTree.build (directivity_arr loaded);
  Ok (with_trees loaded ft lt dt).

Definition get_filter (self : t) (pose : Pose.t) : result (list log_record * (Filter.t sample cplx)) :=
  let find_me := Pose.orientation02 pose in
  tree ← attr (filter_tree self);
  let i := KDTree.query tree find_me in
  coord ← getitem (filter_arr self) (Z.of_nat i);
  let fvl := coord ++ [0; 0; 0; 0; 0; 0; 0] in
  let newpose := Pose.from_filterValueList fvl in
  let key := Pose.create_key newpose in
  match filter_dict self !! key with
  | Some result_filter => Ok ([], result_filter)
  | None => Ok ([Warning "Filter not found: key: {}"], default_filter self)
  end.

Definition get_late_reverb_filter (self : t) (pose : Pose.t)
  : result (list log_record * (Filter.t sample cplx)) :=
  let find_me := Pose.orientation02 pose in
  tree ← attr (late_reverb_tree self);
  let i := KDTree.query tree find_me in
  coord ← getitem (late_reverb_arr self) (Z.of_nat i);
  let fvl := coord ++ [0; 0; 0; 0; 0; 0; 0] in
  let newpose := Pose.from_filterValueList fvl in
  let key := Pose.create_key newpose in
  match late_reverb_filter_dict self !! key with
  | Some result_filter => Ok ([], result_filter)
  | None =>
      default ← attr (default_late_reverb_filter self);
      Ok ([Warning "Late Reverb Filter not found: key: {key}"], default)
  end.

Definition get_directivity_filter (self : t) (pose : Pose.t)
  : result (list log_record * (Filter.t sample cplx)) :=
  let find_me := Pose.orientation02 pose in
  tree ← attr (directivity_tree self);
  let i := KDTree.query tree find_me in
  coord ← getitem (directivity_arr self) (Z.of_nat i);
  let fvl := coord ++ [0; 0; 0; 0; 0; 0; 0] in
  let newpose := Pose.from_filterValueList fvl in
  let key := Pose.create_key newpose in
  match directivity_dict self !! key with
  | Some result_filter => Ok ([], result_filter)
  | None =>
      Ok ([Warning "Directivity Filter not found: key: {key}"],
          default_directivity_filter self)
  end.

Definition get_headphone_filter (self : t) : result (Filter.t sample cplx) :=
  match headphone_filter self with
  | None => Raise RuntimeError
  | Some hp => Ok hp
  end.

(** [__init__] up to the call of [load_filters]. *)
Definition create (irSize block_size : nat) (useHeadphoneFilter : bool)
    (headphoneFilterSize : nat) (useSplittedFilters : bool)
    (lateReverbSize directivitySize : nat) : result t :=
  ir_blocks ← floordiv irSize block_size;
  let plan0 := Fftw.build ir_blocks block_size (block_size * 2) in
  zero_filter ← Filter.init (Np.zeros2 irSize 2 s_zero) ir_blocks block_size None;
  '(default_filter, _) ← Filter.storeInFDomain zero_filter plan0;
  let crossFadeOut := cosine_square_window block_size in
  hp_blocks ← (if useHeadphoneFilter
               then blocks ← floordiv headphoneFilterSize block_size; Ok (Some blocks)
               else Ok None);
  late_blocks ← (if useSplittedFilters
                 then blocks ← floordiv lateReverbSize block_size; Ok (Some blocks)
                 else Ok None);
  late ← match late_blocks with
         | Some blocks =>
             let plan := Fftw.build blocks block_size (block_size * 2) in
             zero_late ← Filter.init (Np.zeros2 lateReverbSize 2 s_zero)
                           blocks block_size None;
             '(default_late, plan') ← Filter.storeInFDomain zero_late plan;
             Ok (Some plan', Some default_late)
         | None => Ok (None, None)
         end;
  dir_ir_blocks ← floordiv directivitySize block_size;
  let plan1 := Fftw.build dir_ir_blocks block_size (block_size * 2) in
  zero_dir ← Filter.init (Np.zeros2 directivitySize 2 s_zero)
               dir_ir_blocks block_size None;
  '(default_directivity, plan2) ← Filter.storeInFDomain zero_dir plan1;
  Ok {| ir_size := irSize;
        ir_blocks := ir_blocks;
        block_size := block_size;
        filter_fftw_plan := plan2;
        default_filter := default_filter;
        crossFadeOut := crossFadeOut;
        crossFadeIn := rev crossFadeOut;
        useHeadphoneFilter := useHeadphoneFilter;
        headPhoneFilterSize := if useHeadphoneFilter then Some headphoneFilterSize else None;
        headphone_ir_blocks := hp_blocks;
        hp_filter_fftw_plan :=
          fmap (fun blocks => Fftw.build blocks block_size (block_size * 2)) hp_blocks;
        useSplittedFilters := useSplittedFilters;
        lateReverbSize := if useSplittedFilters then Some lateReverbSize else None;
        late_ir_blocks := late_blocks;
        late_filter_fftw_plan := fst late;
        default_late_reverb_filter := snd late;
        directivitySize := directivitySize;
        dir_ir_blocks := dir_ir_blocks;
        default_directivity_filter := default_directivity;
        headphone_filter := None;
        filter_dict := ∅;
        late_reverb_filter_dict := ∅;
        directivity_dict := ∅;
        filter_arr := [];
        late_reverb_arr := [];
        directivity_arr := [];
        filter_tree := None;
        late_reverb_tree := None;
        directivity_tree := None |}.

(** [__init__], with the list that [parse_filter_list] yields from the
    filter list file. *)
Definition init (irSize block_size : nat)
    (parsed_filter_list : list (Pose.t * string * FilterType.t))
    (useHeadphoneFilter : bool) (headphoneFilterSize : nat)
    (useSplittedFilters : bool) (lateReverbSize directivitySize : nat) : result t :=
  self ← create irSize block_size useHeadphoneFilter headphoneFilterSize
           useSplittedFilters lateReverbSize directivitySize;
  load_filters self parsed_filter_list.

End FilterStorage.

Global Arguments t : clear implicits.

(** *** Reading the filter list *)

Section Listing.
Context {sample cplx : Type} `{!Numeric sample cplx}.

Variable sf_read : string -> result (list (list sample)).

(** [Pose.from_filterValueList] on the tuple of strings cut out of a
    line.  pose.py is not among the sources, and what it makes of
    strings is left open here. *)
Variable pose_from_strings : list string -> result Pose.t.

(** The fields the headphone branch of [parse_filter_list] writes. *)
Definition with_headphone (self : t sample cplx) (plan : Fftw.t sample)
    (hp_filter : Filter.t sample cplx) : t sample cplx :=
  let '(mk a b c d e f g h i j _ l m n o p q r s _ v w x y z aa ab ac ad) := self in
  mk a b c d e f g h i j (Some plan) l m n o p q r s (Some hp_filter)
     v w x y z aa ab ac ad.

(** One turn of the loop of [parse_filter_list]: the warnings logged, the
    store, and the entry yielded, if the line yields one. *)
Definition parse_line (self : t sample cplx) (line : string)
  : result (list log_record * t sample cplx
            * option (Pose.t * string * FilterType.t)) :=
  if Str.startswith line "#" || bool_decide (line = Str.newline) then
    Ok ([], self, None)
  else
    let line_content := Str.split line in
    filter_path ← getitem line_content (-1);
    if Str.startswith line "HPFILTER" then
      if useHeadphoneFilter self then
        '(log, data) ← load_filter sf_read self filter_path FilterType.Filter;
        blocks ← attr (headphone_ir_blocks self);
        created ← Filter.init data blocks (block_size self) None;
        plan ← attr (hp_filter_fftw_plan self);
        '(hp_filter, plan') ← Filter.storeInFDomain created plan;
        Ok (log, with_headphone self plan' hp_filter, None)
      else Ok ([], self, None)
    else
      first ← getitem line_content 0;
      if Str.isdigit first then
        filter_pose ←
          pose_from_strings (take (length line_content - 1) line_content);
        Ok ([], self, Some (filter_pose, filter_path, FilterType.Filter))
      else if Str.startswith line "FILTER" then
        filter_pose ←
          pose_from_strings (drop 1 (take (length line_content - 1) line_content));
        Ok ([], self, Some (filter_pose, filter_path, FilterType.Filter))
      else if Str.startswith line "LATEREVERB" then
        if useSplittedFilters self then
          filter_pose ←
            pose_from_strings (drop 1 (take (length line_content - 1) line_content));
          Ok ([], self, Some (filter_pose, filter_path, FilterType.LateReverbFilter))
        else Ok ([], self, None)
      else if Str.startswith line "DIRECTIVITY" then
        filter_pose ←
          pose_from_strings (drop 1 (take (length line_content - 1) line_content));
        Ok ([], self, Some (filter_pose, filter_path, FilterType.Directivity))
      else Raise RuntimeError.

(** [list(self.parse_filter_list())] over the lines of the filter list. *)
Fixpoint parse_filter_list (self : t sample cplx) (filter_list : list string)
  : result (list log_record * t sample cplx
            * list (Pose.t * string * FilterType.t)) :=
  match filter_list with
  | [] => Ok ([], self, [])
  | line :: rest =>
      '(log1, self1, yielded) ← parse_line self line;
      '(log2, self2, parsed) ← parse_filter_list self1 rest;
      Ok (log1 ++ log2, self2, option_list yielded ++ parsed)
  end.

(** [load_filters] and [__init__], with the lines of the filter list
    file. *)
Definition load_filters_from_list (self : t sample cplx) (filter_list : list string)
  : result (t sample cplx) :=
  '(_, self1, parsed_filter_list) ← parse_filter_list self filter_list;
  load_filters sf_read self1 parsed_filter_list.

Definition init_from_list (irSize block_size : nat) (filter_list : list string)
    (useHeadphoneFilter : bool) (headphoneFilterSize : nat)
    (useSplittedFilters : bool) (lateReverbSize directivitySize : nat)
  : result (t sample cplx) :=
  self ← create irSize block_size useHeadphoneFilter headphoneFilterSize
           useSplittedFilters lateReverbSize directivitySize;
  load_filters_from_list self filter_list.

End Listing.

End FilterStorage.

(** ** convolver.py *)

Module Convolver.

Section Convolver.
Context {sample cplx : Type} `{!Numeric sample cplx}.

Record t := mk {
  IR_size : nat;
  block_size : nat;
  reverbSize : nat;
  late_IR_blocks : nat;
  useSplittedFilters : bool;
  IR_blocks : nat;
  late_early_transition : nat;
  crossFadeOut : list sample;
  crossFadeIn : list sample;
  buffer : list sample;
  buffer2 : list sample;
  TF_late_left_blocked : list (list cplx);
  TF_late_right_blocked : list (list cplx);
  TF_left_blocked : list (list cplx);
  TF_right_blocked : list (list cplx);
  TF_left_blocked_previous : list (list cplx);
  TF_right_blocked_previous : list (list cplx);
  FDL_left : list (list cplx);
  FDL_right : list (list cplx);
  resultLeftFreq : list cplx;
  resultRightFreq : list cplx;
  resultLeftFreqPrevious : list cplx;
  resultRightFreqPrevious : list cplx;
  outputLeft : list sample;
  outputRight : list sample;
  processCounter : nat;
  interpolate : bool;
  buildNewFilter : bool;
  processStereo : bool;
}.

(** A value passed for [dir_filter]: the default is the integer 1, a
    caller may pass a Filter. *)
Inductive dir_arg :=
  | PyInt (value : Z)
  | PyFilter (dir_filter : Filter.t sample cplx).

(** The input of [process]: a 1-D block of samples, or a 2-D block with
    one row per frame. *)
Inductive block :=
  | Mono (samples : list sample)
  | Stereo (frames : list (list sample)).

Definition init (ir_size block_size : nat) (process_stereo : bool)
    (useSplittedFilters : bool) (lateReverbSize : nat) : result t :=
  late_IR_blocks ← (if useSplittedFilters then floordiv lateReverbSize block_size
                    else Ok O);
  let IR_size := if useSplittedFilters then (ir_size + lateReverbSize)%nat else ir_size in
  IR_blocks ← floordiv IR_size block_size;
  let crossFadeOut := cosine_square_window block_size in
  let spectra := Np.zeros2 IR_blocks (block_size + 1) c_zero in
  let late := Np.zeros2 late_IR_blocks (block_size + 1) c_zero in
  let freq := Np.zeros (block_size + 1) c_zero in
  Ok {| IR_size := IR_size;
        block_size := block_size;
        reverbSize := lateReverbSize;
        late_IR_blocks := late_IR_blocks;
        useSplittedFilters := useSplittedFilters;
        IR_blocks := IR_blocks;
        late_early_transition := (IR_blocks - late_IR_blocks)%nat;
        crossFadeOut := crossFadeOut;
        crossFadeIn := rev crossFadeOut;
        buffer := Np.zeros (block_size * 2) s_zero;
        buffer2 := Np.zeros (block_size * 2) s_zero;
        TF_late_left_blocked := late;
        TF_late_right_blocked := late;
        TF_left_blocked := spectra;
        TF_right_blocked := spectra;
        TF_left_blocked_previous := spectra;
        TF_right_blocked_previous := spectra;
        FDL_left := spectra;
        FDL_right := spectra;
        resultLeftFreq := freq;
        resultRightFreq := freq;
        resultLeftFreqPrevious := freq;
        resultRightFreqPrevious := freq;
        outputLeft := Np.zeros block_size s_zero;
        outputRight := Np.zeros block_size s_zero;
        processCounter := O;
        interpolate := false;
        buildNewFilter := false;
        processStereo := process_stereo |}.

Definition get_counter (self : t) : nat := processCounter self.

Definition with_filters (self : t) (tf_left tf_right : list (list cplx))
    (build : bool) : t :=
  {| IR_size := IR_size self;
     block_size := block_size self;
     reverbSize := reverbSize self;
     late_IR_blocks := late_IR_blocks self;
     useSplittedFilters := useSplittedFilters self;
     IR_blocks := IR_blocks self;
     late_early_transition := late_early_transition self;
     crossFadeOut := crossFadeOut self;
     crossFadeIn := crossFadeIn self;
     buffer := buffer self;
     buffer2 := buffer2 self;
     TF_late_left_blocked := TF_late_left_blocked self;
     TF_late_right_blocked := TF_late_right_blocked self;
     TF_left_blocked := tf_left;
     TF_right_blocked := tf_right;
     TF_left_blocked_previous := TF_left_blocked_previous self;
     TF_right_blocked_previous := TF_right_blocked_previous self;
     FDL_left := FDL_left self;
     FDL_right := FDL_right self;
     resultLeftFreq := resultLeftFreq self;
     resultRightFreq := resultRightFreq self;
     resultLeftFreqPrevious := resultLeftFreqPrevious self;
     resultRightFreqPrevious := resultRightFreqPrevious self;
     outputLeft := outputLeft self;
     outputRight := outputRight self;
     processCounter := processCounter self;
     interpolate := interpolate self;
     buildNewFilter := build;
     processStereo := processStereo self |}.

Definition with_late_filters (self : t) (late_left late_right : list (list cplx)) : t :=
  {| IR_size := IR_size self;
     block_size := block_size self;
     reverbSize := reverbSize self;
     late_IR_blocks := late_IR_blocks self;
     useSplittedFilters := useSplittedFilters self;
     IR_blocks := IR_blocks self;
     late_early_transition := late_early_transition self;
     crossFadeOut := crossFadeOut self;
     crossFadeIn := crossFadeIn self;
     buffer := buffer self;
     buffer2 := buffer2 self;
     TF_late_left_blocked := late_left;
     TF_late_right_blocked := late_right;
     TF_left_blocked := TF_left_blocked self;
     TF_right_blocked := TF_right_blocked self;
     TF_left_blocked_previous := TF_left_blocked_previous self;
     TF_right_blocked_previous := TF_right_blocked_previous self;
     FDL_left := FDL_left self;
     FDL_right := FDL_right self;
     resultLeftFreq := resultLeftFreq self;
     resultRightFreq := resultRightFreq self;
     resultLeftFreqPrevious := resultLeftFreqPrevious self;
     resultRightFreqPrevious := resultRightFreqPrevious self;
     outputLeft := outputLeft self;
     outputRight := outputRight self;
     processCounter := processCounter self;
     interpolate := interpolate self;
     buildNewFilter := buildNewFilter self;
     processStereo := processStereo self |}.

Definition with_flags (self : t) (do_interpolation build : bool) : t :=
  {| IR_size := IR_size self;
     block_size := block_size self;
     reverbSize := reverbSize self;
     late_IR_blocks := late_IR_blocks self;
     useSplittedFilters := useSplittedFilters self;
     IR_blocks := IR_blocks self;
     late_early_transition := late_early_transition self;
     crossFadeOut := crossFadeOut self;
     crossFadeIn := crossFadeIn self;
     buffer := buffer self;
     buffer2 := buffer2 self;
     TF_late_left_blocked := TF_late_left_blocked self;
     TF_late_right_blocked := TF_late_right_blocked self;
     TF_left_blocked := TF_left_blocked self;
     TF_right_blocked := TF_right_blocked self;
     TF_left_blocked_previous := TF_left_blocked_previous self;
     TF_right_blocked_previous := TF_right_blocked_previous self;
     FDL_left := FDL_left self;
     FDL_right := FDL_right self;
     resultLeftFreq := resultLeftFreq self;
     resultRightFreq := resultRightFreq self;
     resultLeftFreqPrevious := resultLeftFreqPrevious self;
     resultRightFreqPrevious := resultRightFreqPrevious self;
     outputLeft := outputLeft self;
     outputRight := outputRight self;
     processCounter := processCounter self;
     interpolate := do_interpolation;
     buildNewFilter := build;
     processStereo := processStereo self |}.

Definition with_previous (self : t) (previous_left previous_right : list (list cplx)) : t :=
  {| IR_size := IR_size self;
     block_size := block_size self;
     reverbSize := reverbSize self;
     late_IR_blocks := late_IR_blocks self;
     useSplittedFilters := useSplittedFilters self;
     IR_blocks := IR_blocks self;
     late_early_transition := late_early_transition self;
     crossFadeOut := crossFadeOut self;
     crossFadeIn := crossFadeIn self;
     buffer := buffer self;
     buffer2 := buffer2 self;
     TF_late_left_blocked := TF_late_left_blocked self;
     TF_late_right_blocked := TF_late_right_blocked self;
     TF_left_blocked := TF_left_blocked self;
     TF_right_blocked := TF_right_blocked self;
     TF_left_blocked_previous := previous_left;
     TF_right_blocked_previous := previous_right;
     FDL_left := FDL_left self;
     FDL_right := FDL_right self;
     resultLeftFreq := resultLeftFreq self;
     resultRightFreq := resultRightFreq self;
     resultLeftFreqPrevious := resultLeftFreqPrevious self;
     resultRightFreqPrevious := resultRightFreqPrevious self;
     outputLeft := outputLeft self;
     outputRight := outputRight self;
     processCounter := processCounter self;
     interpolate := interpolate self;
     buildNewFilter := buildNewFilter self;
     processStereo := processStereo self |}.

Definition with_input (self : t) (buf buf2 : list sample)
    (fdl_left fdl_right : list (list cplx)) : t :=
  {| IR_size := IR_size self;
     block_size := block_size self;
     reverbSize := reverbSize self;
     late_IR_blocks := late_IR_blocks self;
     useSplittedFilters := useSplittedFilters self;
     IR_blocks := IR_blocks self;
     late_early_transition := late_early_transition self;
     crossFadeOut := crossFadeOut self;
     crossFadeIn := crossFadeIn self;
     buffer := buf;
     buffer2 := buf2;
     TF_late_left_blocked := TF_late_left_blocked self;
     TF_late_right_blocked := TF_late_right_blocked self;
     TF_left_blocked := TF_left_blocked self;
     TF_right_blocked := TF_right_blocked self;
     TF_left_blocked_previous := TF_left_blocked_previous self;
     TF_right_blocked_previous := TF_right_blocked_previous self;
     FDL_left := fdl_left;
     FDL_right := fdl_right;
     resultLeftFreq := resultLeftFreq self;
     resultRightFreq := resultRightFreq self;
     resultLeftFreqPrevious := resultLeftFreqPrevious self;
     resultRightFreqPrevious := resultRightFreqPrevious self;
     outputLeft := outputLeft self;
     outputRight := outputRight self;
     processCounter := processCounter self;
     interpolate := interpolate self;
     buildNewFilter := buildNewFilter self;
     processStereo := processStereo self |}.

Definition with_result (self : t) (freq_left freq_right : list cplx)
    (out_left out_right : list sample) : t :=
  {| IR_size := IR_size self;
     block_size := block_size self;
     reverbSize := reverbSize self;
     late_IR_blocks := late_IR_blocks self;
     useSplittedFilters := useSplittedFilters self;
     IR_blocks := IR_blocks self;
     late_early_transition := late_early_transition self;
     crossFadeOut := crossFadeOut self;
     crossFadeIn := crossFadeIn self;
     buffer := buffer self;
     buffer2 := buffer2 self;
     TF_late_left_blocked := TF_late_left_blocked self;
     TF_late_right_blocked := TF_late_right_blocked self;
     TF_left_blocked := TF_left_blocked self;
     TF_right_blocked := TF_right_blocked self;
     TF_left_blocked_previous := TF_left_blocked_previous self;
     TF_right_blocked_previous := TF_right_blocked_previous self;
     FDL_left := FDL_left self;
     FDL_right := FDL_right self;
     resultLeftFreq := freq_left;
     resultRightFreq := freq_right;
     resultLeftFreqPrevious := resultLeftFreqPrevious self;
     resultRightFreqPrevious := resultRightFreqPrevious self;
     outputLeft := out_left;
     outputRight := out_right;
     processCounter := processCounter self;
     interpolate := interpolate self;
     buildNewFilter := buildNewFilter self;
     processStereo := processStereo self |}.

Definition with_result_previous (self : t) (freq_left freq_right : list cplx)
    (out_left out_right : list sample) : t :=
  {| IR_size := IR_size self;
     block_size := block_size self;
     reverbSize := reverbSize self;
     late_IR_blocks := late_IR_blocks self;
     useSplittedFilters := useSplittedFilters self;
     IR_blocks := IR_blocks self;
     late_early_transition := late_early_transition self;
     crossFadeOut := crossFadeOut self;
     crossFadeIn := crossFadeIn self;
     buffer := buffer self;
     buffer2 := buffer2 self;
     TF_late_left_blocked := TF_late_left_blocked self;
     TF_late_right_blocked := TF_late_right_blocked self;
     TF_left_blocked := TF_left_blocked self;
     TF_right_blocked := TF_right_blocked self;
     TF_left_blocked_previous := TF_left_blocked_previous self;
     TF_right_blocked_previous := TF_right_blocked_previous self;
     FDL_left := FDL_left self;
     FDL_right := FDL_right self;
     resultLeftFreq := resultLeftFreq self;
     resultRightFreq := resultRightFreq self;
     resultLeftFreqPrevious := freq_left;
     resultRightFreqPrevious := freq_right;
     outputLeft := out_left;
     outputRight := out_right;
     processCounter := processCounter self;
     interpolate := interpolate self;
     buildNewFilter := buildNewFilter self;
     processStereo := processStereo self |}.

Definition with_commit (self : t) : t :=
  {| IR_size := IR_size self;
     block_size := block_size self;
     reverbSize := reverbSize self;
     late_IR_blocks := late_IR_blocks self;
     useSplittedFilters := useSplittedFilters self;
     IR_blocks := IR_blocks self;
     late_early_transition := late_early_transition self;
     crossFadeOut := crossFadeOut self;
     crossFadeIn := crossFadeIn self;
     buffer := buffer self;
     buffer2 := buffer2 self;
     TF_late_left_blocked := TF_late_left_blocked self;
     TF_late_right_blocked := TF_late_right_blocked self;
     TF_left_blocked := TF_left_blocked self;
     TF_right_blocked := TF_right_blocked self;
     TF_left_blocked_previous := TF_left_blocked_previous self;
     TF_right_blocked_previous := TF_right_blocked_previous self;
     FDL_left := FDL_left self;
     FDL_right := FDL_right self;
     resultLeftFreq := resultLeftFreq self;
     resultRightFreq := resultRightFreq self;
     resultLeftFreqPrevious := resultLeftFreqPrevious self;
     resultRightFreqPrevious := resultRightFreqPrevious self;
     outputLeft := outputLeft self;
     outputRight := outputRight self;
     processCounter := S (processCounter self);
     interpolate := false;
     buildNewFilter := buildNewFilter self;
     processStereo := processStereo self |}.

(** The two defaults of [setIR(self, filter, do_interpolation, dist=1,
    dir_filter=1)]. *)
Definition default_dist : sample := s_of_Z 1.
Definition default_dir_filter : dir_arg := PyInt 1.

(** An operand of [*] that is None raises TypeError. *)
Definition operand {A} (a : option A) : result A :=
  match a with
  | Some x => Ok x
  | None => Raise TypeError
  end.

(** [spectra * dir_spectra * dist] *)
Definition scaled (spectra dir_spectra : option (list (list cplx))) (dist : sample)
  : result (list (list cplx)) :=
  a ← operand spectra;
  d ← operand dir_spectra;
  product ← Np.broadcast2 c_mul a d;
  Ok (map (map (fun z => c_scale z dist)) product).

Definition buildFilters (self : t) : result t :=
  if useSplittedFilters self && buildNewFilter self then
    tf_left ← Np.assign_rows (block_size self + 1) (TF_left_blocked self)
                (late_early_transition self) (length (TF_left_blocked self))
                (TF_late_left_blocked self);
    tf_right ← Np.assign_rows (block_size self + 1) (TF_right_blocked self)
                 (late_early_transition self) (length (TF_right_blocked self))
                 (TF_late_right_blocked self);
    Ok (with_filters self tf_left tf_right false)
  else Ok self.

Definition setIR (self : t) (filter : Filter.t sample cplx) (do_interpolation : bool)
    (dist : sample) (dir_filter : dir_arg) : result (list log_record * t) :=
  let '(log1, (spectra_left, spectra_right)) := Filter.getFilterFD filter in
  '(log2, (dir_left, dir_right)) ←
    match dir_filter with
    | PyFilter directivity => Ok (Filter.getFilterFD directivity)
    | PyInt _ => Raise AttributeError
    end;
  rhs_left ← scaled spectra_left dir_left dist;
  tf_left ← Np.assign_rows (block_size self + 1) (TF_left_blocked self)
              0 (late_early_transition self) rhs_left;
  rhs_right ← scaled spectra_right dir_right dist;
  tf_right ← Np.assign_rows (block_size self + 1) (TF_right_blocked self)
               0 (late_early_transition self) rhs_right;
  Ok (log1 ++ log2,
      with_flags (with_filters self tf_left tf_right (buildNewFilter self))
                 do_interpolation true).

Definition setLateReverb (self : t) (filter : Filter.t sample cplx) (do_interpolation : bool)
  : result (list log_record * t) :=
  let '(log1, (spectra_left, spectra_right)) := Filter.getFilterFD filter in
  rhs_left ← operand spectra_left;
  late_left ← Np.assign_rows (block_size self + 1) (TF_late_left_blocked self)
                0 (late_IR_blocks self) rhs_left;
  rhs_right ← operand spectra_right;
  late_right ← Np.assign_rows (block_size self + 1) (TF_late_right_blocked self)
                 0 (late_IR_blocks self) rhs_right;
  Ok (log1, with_flags (with_late_filters self late_left late_right)
                       do_interpolation true).

Definition saveOldFilters (self : t) : t :=
  with_previous self (TF_left_blocked self) (TF_right_blocked self).

(** [fdl[0, ] = spectrum] *)
Definition set_row0 (fdl : list (list cplx)) (spectrum : list cplx)
  : result (list (list cplx)) :=
  match fdl with
  | [] => Raise IndexError
  | _ :: rest => Ok (spectrum :: rest)
  end.

(** A 1-D block of another size than [block_size] is rejected: a shorter
    one by the concatenation along axis 1, a longer one by the assignment
    into the buffer.  The plan is taken to leave the buffer as it is. *)
Definition fill_buffer_mono (self : t) (samples : list sample) : result t :=
  let N := block_size self in
  if negb (length samples =? N)%nat then Raise ValueError
  else
    let first := (processCounter self =? 0)%nat in
    let buf := if first then take N (buffer self) ++ samples
               else drop N (buffer self) ++ samples in
    let fdl_left := if first then FDL_left self else Np.roll1 (FDL_left self) in
    let fdl_right := if first then FDL_right self else Np.roll1 (FDL_right self) in
    let spectrum := rfft buf in
    fdl_left' ← set_row0 fdl_left spectrum;
    fdl_right' ← set_row0 fdl_right spectrum;
    Ok (with_input self buf (buffer2 self) fdl_left' fdl_right').

Definition fill_buffer_stereo (self : t) (frames : list (list sample)) : result t :=
  let N := block_size self in
  padded ← (if (2 * length frames <? N)%nat
            then Np.concatenate0 2 frames (Np.zeros2 (N - 2 * length frames) 2 s_zero)
            else Ok frames);
  column_left ← Np.column padded 0;
  if negb (length padded =? N)%nat then Raise ValueError
  else
    column_right ← Np.column padded 1;
    let first := (processCounter self =? 0)%nat in
    let buf := if first then take N (buffer self) ++ column_left
               else drop N (buffer self) ++ column_left in
    let buf2 := if first then take N (buffer2 self) ++ column_right
                else drop N (buffer2 self) ++ column_right in
    let fdl_left := if first then FDL_left self else Np.roll1 (FDL_left self) in
    let fdl_right := if first then FDL_right self else Np.roll1 (FDL_right self) in
    fdl_left' ← set_row0 fdl_left (rfft buf);
    fdl_right' ← set_row0 fdl_right (rfft buf2);
    Ok (with_input self buf buf2 fdl_left' fdl_right').

(** [np.sum(np.multiply(tf, fdl), axis=0)] *)
Definition multiply_accumulate (self : t) (tf fdl : list (list cplx))
  : result (list cplx) :=
  product ← Np.broadcast2 c_mul tf fdl;
  Ok (Np.sum0 c_add c_zero (block_size self + 1) product).

(** [plan()[block_size : block_size * 2]] for the inverse plan bound to
    [freq]. *)
Definition output_block (self : t) (freq : list cplx) : list sample :=
  take (block_size self) (drop (block_size self) (irfft freq)).

(** "Second" and "Third" of [process]: the result of the current filter. *)
Definition convolve_current (self : t) : result t :=
  freq_left ← multiply_accumulate self (TF_left_blocked self) (FDL_left self);
  freq_right ← multiply_accumulate self (TF_right_blocked self) (FDL_right self);
  Ok (with_result self freq_left freq_right
        (output_block self freq_left) (output_block self freq_right)).

(** [np.add(np.multiply(out, crossFadeIn), np.multiply(previous, crossFadeOut))] *)
Definition fade (self : t) (out previous : list sample) : list sample :=
  zip_with s_add (zip_with s_mul out (crossFadeIn self))
                 (zip_with s_mul previous (crossFadeOut self)).

(** "Crossfade" of [process]: the result of the saved filter, mixed in. *)
Definition crossfade (self : t) : result t :=
  freq_left ← multiply_accumulate self (TF_left_blocked_previous self) (FDL_left self);
  freq_right ← multiply_accumulate self (TF_right_blocked_previous self) (FDL_right self);
  Ok (with_result_previous self freq_left freq_right
        (fade self (outputLeft self) (output_block self freq_left))
        (fade self (outputRight self) (output_block self freq_right))).

Definition fill_buffer (self : t) (input : block) : result t :=
  match processStereo self, input with
  | false, Mono samples => fill_buffer_mono self samples
  | true, Stereo frames => fill_buffer_stereo self frames
  | _, _ => Raise ValueError
  end.

Definition process (self : t) (input : block)
  : result (t * (list sample * list sample)) :=
  filled ← fill_buffer self input;
  built ← buildFilters (saveOldFilters filled);
  current ← convolve_current built;
  faded ← (if interpolate current then crossfade current else Ok current);
  let final := with_commit faded in
  Ok (final, (outputLeft final, outputRight final)).

End Convolver.

Global Arguments t : clear implicits.
Global Arguments dir_arg : clear implicits.
Global Arguments block : clear implicits.

End Convolver.

(** ** application.py: configuration *)

Module BinSimConfig.

Section Config.
Context {sample cplx : Type} `{!Numeric sample cplx}.

(** The builtins [int(s)] and [float(s)] on a string. *)
Variable py_int : string -> result Z.
Variable py_float : string -> result sample.

(** The values the configuration dictionary holds. *)
Inductive value :=
  | VStr (s : string)
  | VInt (z : Z)
  | VFloat (x : sample)
  | VBool (b : bool)
  | VNone.

Definition parse_boolean (any_value : value) : value :=
  match any_value with
  | VBool b => VBool b
  | VStr s =>
      if bool_decide (s = "True") then VBool true
      else if bool_decide (s = "False") then VBool false
      else VNone
  | _ => VNone
  end.

Record t := mk { configurationDict : gmap string value }.

Definition init : t :=
  {| configurationDict :=
       <["soundfile" := VStr ""]>
       (<["blockSize" := VInt 256]>
       (<["filterSize" := VInt 16384]>
       (<["filterList" := VStr "brirs/filter_list_kemar5.txt"]>
       (<["enableCrossfading" := VBool false]>
       (<["useHeadphoneFilter" := VBool false]>
       (<["loudnessFactor" := VFloat (s_of_Z 1)]>
       (<["maxChannels" := VInt 8]>
       (<["samplingRate" := VInt 44100]>
       (<["loopSound" := VBool true]> ∅))))))))) |}.

(** [config_value_type(value)] for the type of a stored value that is not
    a bool. *)
Definition convert (current : value) (text : string) : result value :=
  match current with
  | VStr _ => Ok (VStr text)
  | VInt _ => z ← py_int text; Ok (VInt z)
  | VFloat _ => x ← py_float text; Ok (VFloat x)
  | VBool _ => Ok (VBool (negb (bool_decide (text = ""))))
  | VNone => Raise TypeError
  end.

(** One iteration of the loop of [read_from_file], on the tokens
    [str.split(line)] gives. *)
Definition read_line (self : t) (line_content : list string)
  : result (list log_record * t) :=
  key ← getitem line_content 0;
  text ← getitem line_content 1;
  match configurationDict self !! key with
  | Some current =>
      match current with
      | VBool _ =>
          let boolean_config := parse_boolean (VStr text) in
          let log :=
            match boolean_config with
            | VNone => [Warning ("Cannot convert " +:+ text +:+ " to bool. (key: " +:+ key)]
            | _ => []
            end in
          Ok (log, {| configurationDict := <[key := boolean_config]> (configurationDict self) |})
      | _ =>
          converted ← convert current text;
          Ok ([], {| configurationDict := <[key := converted]> (configurationDict self) |})
      end
  | None => Ok ([Warning ("Entry " +:+ key +:+ " is unknown")], self)
  end.

Fixpoint read_lines (self : t) (lines : list (list string))
  : result (list log_record * t) :=
  match lines with
  | [] => Ok ([], self)
  | line_content :: rest =>
      '(log1, self1) ← read_line self line_content;
      '(log2, self2) ← read_lines self1 rest;
      Ok (log1 ++ log2, self2)
  end.

(** [read_from_file], given the lines of the file as token lists. *)
Definition read_from_file (self : t) (config : list (list string))
  : result (list log_record * t) :=
  read_lines self config.

Definition get (self : t) (setting : string) : result value :=
  match configurationDict self !! setting with
  | Some v => Ok v
  | None => Raise KeyError
  end.

(** Truth value of a configuration value in an [if]. *)
Definition truthy (v : value) : bool :=
  match v with
  | VStr s => negb (bool_decide (s = ""))
  | VInt z => negb (z =? 0)
  | VFloat x => negb (negb (s_ltb x s_zero) && negb (s_ltb s_zero x))
  | VBool b => b
  | VNone => false
  end.

(** A configuration value as a factor of [np.multiply]. *)
Definition factor (v : value) : result sample :=
  match v with
  | VFloat x => Ok x
  | VInt z => Ok (s_of_Z z)
  | VBool b => Ok (s_of_Z (if b then 1 else 0))
  | VStr _ | VNone => Raise TypeError
  end.

End Config.

Global Arguments t : clear implicits.
Global Arguments value : clear implicits.

End BinSimConfig.

(** ** application.py: the server *)

Module BinSim.

Section BinSim.
Context {sample cplx : Type} `{!Numeric sample cplx}.

Record t := mk {
  config : BinSimConfig.t sample;
  inChannels : nat;
  outChannels : nat;
  maxChannels : Z;
  blockSize : nat;
  result_buffer : list (list sample);
  block : list sample;
  convolverHP : option (Convolver.t sample cplx);
  convolvers : list (Convolver.t sample cplx);
  filterStorage : FilterStorage.t sample cplx;
  poseParser : InlinePoseParser.t;
}.

Definition with_block (self : t) (samples : list sample) : t :=
  {| config := config self; inChannels := inChannels self;
     outChannels := outChannels self; maxChannels := maxChannels self;
     blockSize := blockSize self; result_buffer := result_buffer self;
     block := samples; convolverHP := convolverHP self;
     convolvers := convolvers self; filterStorage := filterStorage self;
     poseParser := poseParser self |}.

Definition with_poseParser (self : t) (parser : InlinePoseParser.t) : t :=
  {| config := config self; inChannels := inChannels self;
     outChannels := outChannels self; maxChannels := maxChannels self;
     blockSize := blockSize self; result_buffer := result_buffer self;
     block := block self; convolverHP := convolverHP self;
     convolvers := convolvers self; filterStorage := filterStorage self;
     poseParser := parser |}.

Definition with_convolvers (self : t) (hp : option (Convolver.t sample cplx))
    (channels : list (Convolver.t sample cplx)) (out : list (list sample)) : t :=
  {| config := config self; inChannels := inChannels self;
     outChannels := outChannels self; maxChannels := maxChannels self;
     blockSize := blockSize self; result_buffer := out;
     block := block self; convolverHP := hp;
     convolvers := channels; filterStorage := filterStorage self;
     poseParser := poseParser self |}.

(** [result[:, 0], result[:, 1] = left, right] on the [blockSize] x 2 buffer. *)
Definition set_columns (self : t) (out : list sample * list sample)
  : result (list (list sample)) :=
  if (length (fst out) =? blockSize self)%nat && (length (snd out) =? blockSize self)%nat
  then Ok (zip_with (fun l r => [l; r]) (fst out) (snd out))
  else Raise ValueError.

(** [np.max(np.abs(result)) > 1] *)
Definition clipping (out : list (list sample)) : result bool :=
  match fmap s_abs (concat out) with
  | [] => Raise ValueError
  | x :: rest =>
      Ok (s_ltb (s_of_Z 1) (foldl (fun m y => if s_ltb m y then y else m) x rest))
  end.

Definition clipping_log (clipped : bool) : list log_record :=
  if clipped then [Warning "Clipping occurred: Adjust loudnessFactor!"] else [].

Definition process_block (self : t) (convChannel : Z) : result (list log_record * t) :=
  necessary ← InlinePoseParser.is_filter_update_necessary (poseParser self) convChannel;
  '(log1, self1) ←
    (if (necessary : bool) then
       '(parser, filterValueList) ←
         InlinePoseParser.get_current_values (poseParser self) convChannel;
       '(log_get, filter) ←
         FilterStorage.get_filter (filterStorage self)
           (Pose.from_filterValueList filterValueList);
       convolver ← getitem (convolvers self) convChannel;
       enableCrossfading ← BinSimConfig.get (config self) "enableCrossfading";
       '(log_set, convolver') ←
         Convolver.setIR convolver filter (BinSimConfig.truthy enableCrossfading)
           Convolver.default_dist Convolver.default_dir_filter;
       channels ← setitem (convolvers self) convChannel convolver';
       Ok (log_get ++ log_set,
           with_convolvers (with_poseParser self parser)
             (convolverHP self) channels (result_buffer self))
     else Ok ([], self));
  convolver ← getitem (convolvers self1) convChannel;
  '(convolver', out) ← Convolver.process convolver (Convolver.Mono (block self1));
  channels ← setitem (convolvers self1) convChannel convolver';
  out1 ← set_columns self1 out;
  useHeadphoneFilter ← BinSimConfig.get (config self1) "useHeadphoneFilter";
  '(hp, out2) ←
    (if BinSimConfig.truthy useHeadphoneFilter then
       match convolverHP self1 with
       | None => Raise AttributeError
       | Some hp =>
           '(hp', out_hp) ← Convolver.process hp (Convolver.Stereo out1);
           out2 ← set_columns self1 out_hp;
           Ok (Some hp', out2)
       end
     else Ok (convolverHP self1, out1));
  loudnessFactor ← BinSimConfig.get (config self1) "loudnessFactor";
  gain ← BinSimConfig.factor loudnessFactor;
  let scaled := map (map (fun x => s_mul x gain)) out2 in
  clipped ← clipping scaled;
  Ok (log1 ++ clipping_log clipped, with_convolvers self1 hp channels scaled).

(** What [recv] gives in one turn of the loop: no message yet (it raises
    ZMQError), or the float32 values of a message frame. *)
Inductive event :=
  | NoMessage
  | Message (frame : list sample).

Definition recv (ev : event) : result (list sample) :=
  match ev with
  | NoMessage => Raise ZMQError
  | Message frame => Ok frame
  end.

(** [stereo_audio_in[row, 1]] and the [int] of it. *)
Definition int_at (stereo_audio_in : list (list sample)) (row : Z) : result Z :=
  r ← getitem stereo_audio_in row;
  x ← getitem r 1;
  s_int x.

(** The body of the [try] in [run_server]; the value is the reply sent. *)
Definition serve (self : t) (ev : event)
  : result (list log_record * t * list (list sample)) :=
  message_frame ← recv ev;
  stereo_audio_in ← Np.reshape message_frame (blockSize self) (inChannels self);
  samples ← Np.column stereo_audio_in 0;
  let self1 := with_block self samples in
  convChannel ← int_at stereo_audio_in 0;
  azimuth ← int_at stereo_audio_in 1;
  elevation ← int_at stereo_audio_in 2;
  parser ← InlinePoseParser.parse_pose_input (poseParser self1)
             convChannel azimuth elevation;
  '(log, self2) ← process_block (with_poseParser self1 parser) convChannel;
  Ok (log, self2, result_buffer self2).

(** A run of the server loop over the turns of a finite trace: the loop
    is still running at the end of the trace, or it was left by an
    exception other than ZMQError, the one the handler passes over. *)
Inductive outcome :=
  | Serving (self : t)
  | Terminated (e : exn).

Fixpoint run_server (self : t) (trace : list event)
  : list (list (list sample)) * outcome :=
  match trace with
  | [] => ([], Serving self)
  | ev :: rest =>
      match serve self ev with
      | Ok (_, self', reply) =>
          let '(replies, final) := run_server self' rest in
          (reply :: replies, final)
      | Raise ZMQError => run_server self rest
      | Raise e => ([], Terminated e)
      end
  end.

End BinSim.

Global Arguments t : clear implicits.
Global Arguments event : clear implicits.
Global Arguments outcome : clear implicits.

End BinSim.

(** ** Exact real arithmetic as an instance

    Samples are real numbers, bins are pairs (real part, imaginary part),
    and the two transforms are the discrete Fourier sums that numpy and
    pyfftw implement: [rfft] keeps the bins 0..M/2 of a length-M frame,
    [irfft] rebuilds 2(m-1) samples from m bins and scales by the length. *)

Module RealArith.

Local Open Scope R_scope.

Definition C : Type := R * R.

Definition Cadd (a b : C) : C := (fst a + fst b, snd a + snd b).
Definition Cmul (a b : C) : C :=
  (fst a * fst b - snd a * snd b, fst a * snd b + snd a * fst b).
Definition Cscale (a : C) (x : R) : C := (fst a * x, snd a * x).

Definition Rsum (l : list R) : R := foldr Rplus 0 l.

Definition angle (k n M : nat) : R := 2 * PI * INR k * INR n / INR M.

Definition dft_bin (x : list R) (k : nat) : C :=
  let M := length x in
  (Rsum (imap (fun n xn => xn * cos (angle k n M)) x),
   - Rsum (imap (fun n xn => xn * sin (angle k n M)) x)).

Definition rfft (x : list R) : list C :=
  map (dft_bin x) (seq 0 (length x / 2 + 1)).

Definition weight (m k : nat) : R :=
  if ((k =? 0) || (k =? m - 1))%nat then 1 else 2.

Definition idft_sample (y : list C) (n : nat) : R :=
  let m := length y in
  let M := (2 * (m - 1))%nat in
  Rsum (imap (fun k yk =>
                weight m k * (fst yk * cos (angle k n M) - snd yk * sin (angle k n M)))
             y) / INR M.

Definition irfft (y : list C) : list R :=
  map (idft_sample y) (seq 0 (2 * (length y - 1))).

Definition Rltb (a b : R) : bool := if Rlt_dec a b then true else false.

(** [int(x)]: the integer towards zero. *)
Definition Rint (x : R) : result Z :=
  Ok (if Rle_dec 0 x then Int_part x else (- Int_part (- x))%Z).

(** Both transforms give one value per index of their range. *)
Definition rfft_length (x : list R)
  : length (rfft x) = (length x / 2 + 1)%nat :=
  eq_trans (length_map (dft_bin x) (seq 0 (length x / 2 + 1)))
           (length_seq (length x / 2 + 1) 0).

Definition irfft_length (y : list C)
  : length (irfft y) = (2 * (length y - 1))%nat :=
  eq_trans (length_map (idft_sample y) (seq 0 (2 * (length y - 1))))
           (length_seq (2 * (length y - 1)) 0).

End RealArith.

#[global] Instance RNumeric : Numeric R RealArith.C := {|
  s_zero := 0%R;
  s_of_Z := IZR;
  s_pi := PI;
  s_add := Rplus;
  s_mul := Rmult;
  s_div := Rdiv;
  s_cos := cos;
  s_abs := Rabs;
  s_ltb := RealArith.Rltb;
  s_int := RealArith.Rint;
  c_zero := (0%R, 0%R);
  c_add := RealArith.Cadd;
  c_mul := RealArith.Cmul;
  c_scale := RealArith.Cscale;
  rfft := RealArith.rfft;
  irfft := RealArith.irfft;
  rfft_length := RealArith.rfft_length;
  irfft_length := RealArith.irfft_length;
|}.

(** * Vocabulary of the statements *)

(** ** Pose updates, nearest points, parsed filter lists *)

(** The calls that do not change the direction stored for [ch]. *)
Definition keeps (maxChannels ch : Z) (stored : list Z) (call : Z * Z * Z) : Prop :=
  let '(c, az, el) := call in
  0 <= c < maxChannels /\ (c = ch -> [az; el] = take 2 stored).



(** ** Shapes and sums of arrays *)

(** An array of [rows] rows of [cols] entries. *)
Definition shaped {A} (rows cols : nat) (a : list (list A)) : Prop :=
  length a = rows /\ Forall (fun r => length r = cols) a.

Section SumVocabulary.
Context {sample cplx : Type} `{!Numeric sample cplx}.
Implicit Types (a tf fdl : list (list cplx)) (term : nat -> cplx).

(** Entry [a[i][k]] of an array of bins. *)
Definition entry a (i k : nat) : cplx :=
  default c_zero (a !! i ≫= fun r => r !! k).

(** [term 0 + term 1 + ... + term n], added up from the left. *)
Fixpoint partial_sum term (n : nat) : cplx :=
  match n with
  | O => term O
  | S m => c_add (partial_sum term m) (term (S m))
  end.

(** The sum of [term i] over i in [0, T). *)
Definition bin_sum (T : nat) term : cplx :=
  match T with
  | O => c_zero
  | S n => partial_sum term n
  end.

End SumVocabulary.

(** ** Convolver states and the steps of [process] *)

Section ConvolverVocabulary.
Context {sample cplx : Type} `{!Numeric sample cplx}.
Import Convolver.
Implicit Types (c d : Convolver.t sample cplx).

(** The shapes the constructor sets up and the methods keep. *)
Record well_shaped c : Prop := {
  wf_blocks : (1 <= IR_blocks c)%nat;
  wf_transition : (late_early_transition c + late_IR_blocks c = IR_blocks c)%nat;
  wf_TF_left : shaped (IR_blocks c) (block_size c + 1) (TF_left_blocked c);
  wf_TF_right : shaped (IR_blocks c) (block_size c + 1) (TF_right_blocked c);
  wf_TF_late_left : shaped (late_IR_blocks c) (block_size c + 1) (TF_late_left_blocked c);
  wf_TF_late_right : shaped (late_IR_blocks c) (block_size c + 1) (TF_late_right_blocked c);
  wf_FDL_left : shaped (IR_blocks c) (block_size c + 1) (FDL_left c);
  wf_FDL_right : shaped (IR_blocks c) (block_size c + 1) (FDL_right c);
  wf_buffer : length (buffer c) = (block_size c * 2)%nat;
  wf_buffer2 : length (buffer2 c) = (block_size c * 2)%nat;
  wf_crossFadeIn : length (crossFadeIn c) = block_size c;
  wf_crossFadeOut : length (crossFadeOut c) = block_size c;
}.

(** The blocks [process] takes: [block_size] samples for a mono
    convolver, [block_size] frames of two samples for a stereo one. *)
Definition accepts c (input : block sample) : Prop :=
  match processStereo c, input with
  | false, Mono samples => length samples = block_size c
  | true, Stereo frames =>
      length frames = block_size c /\ Forall (fun r => length r = 2%nat) frames
  | _, _ => False
  end.

(** The input window and the delay line after a block has been fed. *)
Definition next_buffer c (buf new : list sample) : list sample :=
  if (processCounter c =? 0)%nat then take (block_size c) buf ++ new
  else drop (block_size c) buf ++ new.

Definition shifted c (fdl : list (list cplx)) : list (list cplx) :=
  if (processCounter c =? 0)%nat then fdl else Np.roll1 fdl.

(** The filter after [buildFilters]: the late rows are replaced when a
    rebuild is pending on a convolver with split filters. *)
Definition rebuild d : Convolver.t sample cplx :=
  if useSplittedFilters d && buildNewFilter d then
    with_filters d
      (take (late_early_transition d) (TF_left_blocked d) ++ TF_late_left_blocked d)
      (take (late_early_transition d) (TF_right_blocked d) ++ TF_late_right_blocked d)
      false
  else d.

(** The accumulated products of a filter and a delay line, as arrays. *)
Definition accumulate (N : nat) (tf fdl : list (list cplx)) : list cplx :=
  Np.sum0 c_add c_zero (N + 1) (zip_with (zip_with c_mul) tf fdl).

(** The convolver after the result of the current filter, and after the
    result of the saved filter has been mixed in. *)
Definition current_of d : Convolver.t sample cplx :=
  let freq_left := accumulate (block_size d) (TF_left_blocked d) (FDL_left d) in
  let freq_right := accumulate (block_size d) (TF_right_blocked d) (FDL_right d) in
  with_result d freq_left freq_right
    (output_block d freq_left) (output_block d freq_right).

Definition faded_of d : Convolver.t sample cplx :=
  let freq_left := accumulate (block_size d) (TF_left_blocked_previous d) (FDL_left d) in
  let freq_right := accumulate (block_size d) (TF_right_blocked_previous d) (FDL_right d) in
  with_result_previous d freq_left freq_right
    (fade d (outputLeft d) (output_block d freq_left))
    (fade d (outputRight d) (output_block d freq_right)).

End ConvolverVocabulary.

(** ** Exact arithmetic: window angles and concrete objects *)


(** Evaluation that leaves the real-number operations standing. *)
Ltac evaluate :=
  cbv -[Rplus Rmult Rminus Rdiv Ropp Rinv Rabs cos sin PI INR IZR
        RealArith.dft_bin RealArith.idft_sample RealArith.Rltb RealArith.Rint
        cosine_square_window].

(** Sound files: a unit impulse on the left ear over four frames, the same
    cut to two frames in "short.wav", and a mono impulse for the
    directivity. *)
Definition example_files (path : string) : result (list (list R)) :=
  if bool_decide (path = "directivity.wav") then Ok [[1%R]; [0%R]; [0%R]; [0%R]]
  else if bool_decide (path = "short.wav") then Ok [[1%R; 0%R]; [0%R; 0%R]]
  else Ok [[1%R; 0%R]; [0%R; 0%R]; [0%R; 0%R]; [0%R; 0%R]].

(** A filter list with directional filters at (0,0), (30,0) and (60,0). *)
Definition example_list : list (Pose.t * string * FilterType.t) :=
  [ (Pose.from_filterValueList [0; 0; 0; 0; 0; 0; 0; 0; 0], "az000.wav",
     FilterType.Filter);
    (Pose.from_filterValueList [30; 0; 0; 0; 0; 0; 0; 0; 0], "az030.wav",
     FilterType.Filter);
    (Pose.from_filterValueList [60; 0; 0; 0; 0; 0; 0; 0; 0], "az060.wav",
     FilterType.Filter);
    (Pose.from_filterValueList [0; 0; 0; 0; 0; 0; 0; 0; 0], "late.wav",
     FilterType.LateReverbFilter);
    (Pose.from_filterValueList [0; 0; 0; 0; 0; 0; 0; 0; 0], "directivity.wav",
     FilterType.Directivity) ].


(** A server for eight channels and blocks of four samples, and two
    requests: one for channel 8 and one for channel 0, both at azimuth 30. *)
Definition example_server (convolver : Convolver.t R RealArith.C)
    (store : FilterStorage.t R RealArith.C) : BinSim.t R RealArith.C :=
  {| BinSim.config := BinSimConfig.init;
     BinSim.inChannels := 2;
     BinSim.outChannels := 2;
     BinSim.maxChannels := 8;
     BinSim.blockSize := 4;
     BinSim.result_buffer := Np.zeros2 4 2 0%R;
     BinSim.block := Np.zeros 4 0%R;
     BinSim.convolverHP := None;
     BinSim.convolvers := replicate 8 convolver;
     BinSim.filterStorage := store;
     BinSim.poseParser := InlinePoseParser.init 8 |}.

Definition request_channel_8 : list R := [1; 8; 0; 30; 0; 0; 0; 0]%R.
Definition request_channel_0 : list R := [1; 0; 0; 30; 0; 0; 0; 0]%R.

(** * Properties *)

(** ** Python sequences *)

Section PySequences.
Context {A : Type}.
Implicit Types (l : list A) (i j : Z) (x : A).

Lemma getitem_in_range l i :
  0 <= i < Z.of_nat (length l) ->
  exists x, l !! Z.to_nat i = Some x /\ getitem l i = Ok x.
Proof.
  intros Hi. unfold getitem.
  destruct (i <? 0) eqn:Hneg; [apply Z.ltb_lt in Hneg; lia|].
  destruct (0 <=? i) eqn:H0; [|apply Z.leb_gt in H0; lia].
  destruct (i <? Z.of_nat (length l)) eqn:H1; [|apply Z.ltb_ge in H1; lia].
  simpl. destruct (lookup_lt_is_Some_2 l (Z.to_nat i)) as [x Hx]; [lia|].
  exists x. by rewrite Hx.
Qed.

Lemma getitem_lookup l i x :
  0 <= i -> l !! Z.to_nat i = Some x -> getitem l i = Ok x.
Proof.
  intros Hi Hx. pose proof (lookup_lt_Some _ _ _ Hx) as Hlt.
  destruct (getitem_in_range l i) as (y & Hy & ->); [lia|]. congruence.
Qed.

Lemma getitem_too_large l i :
  Z.of_nat (length l) <= i -> getitem l i = Raise IndexError.
Proof.
  intros Hi. unfold getitem.
  destruct (i <? 0) eqn:Hneg; [apply Z.ltb_lt in Hneg; lia|].
  destruct (i <? Z.of_nat (length l)) eqn:H1; [apply Z.ltb_lt in H1; lia|].
  by rewrite andb_false_r.
Qed.

Lemma setitem_in_range l i x :
  0 <= i < Z.of_nat (length l) ->
  setitem l i x = Ok (<[Z.to_nat i := x]> l).
Proof.
  intros Hi. unfold setitem.
  destruct (i <? 0) eqn:Hneg; [apply Z.ltb_lt in Hneg; lia|].
  destruct (0 <=? i) eqn:H0; [|apply Z.leb_gt in H0; lia].
  destruct (i <? Z.of_nat (length l)) eqn:H1; [|apply Z.ltb_ge in H1; lia].
  done.
Qed.

Lemma getitem_insert_eq l i x :
  0 <= i < Z.of_nat (length l) ->
  getitem (<[Z.to_nat i := x]> l) i = Ok x.
Proof.
  intros Hi. apply getitem_lookup; [lia|].
  apply list_lookup_insert_eq. lia.
Qed.

Lemma getitem_insert_ne l i j x :
  0 <= i -> 0 <= j -> i <> j ->
  getitem (<[Z.to_nat i := x]> l) j = getitem l j.
Proof.
  intros Hi Hj Hne. unfold getitem. rewrite length_insert.
  destruct (j <? 0) eqn:Hneg; [apply Z.ltb_lt in Hneg; lia|].
  rewrite list_lookup_insert_ne; [done|lia].
Qed.

End PySequences.

(** ** The pose tracker *)

Section PoseTracker.
Import InlinePoseParser.

Lemma parser_init_wf maxChannels : 0 <= maxChannels -> wf maxChannels (init maxChannels).
Proof.
  intros Hm. unfold wf, init, Py.repeat. simpl.
  rewrite !length_replicate. repeat split; lia.
Qed.

Lemma init_dirty maxChannels ch :
  0 <= ch < maxChannels ->
  is_filter_update_necessary (init maxChannels) ch = Ok true.
Proof.
  intros Hch. unfold is_filter_update_necessary, init, Py.repeat. simpl.
  apply getitem_lookup; [lia|].
  apply lookup_replicate_2. lia.
Qed.

(** An update with the stored direction changes nothing. *)
Lemma parse_same maxChannels p ch az el stored :
  0 <= ch < maxChannels -> wf maxChannels p ->
  getitem (valueList p) ch = Ok stored ->
  [az; el] = take 2 stored ->
  parse_pose_input p ch az el = Ok p.
Proof.
  intros Hch (Hf & Hv & Hd) Hs Heq. unfold parse_pose_input.
  rewrite Hs. simpl. rewrite bool_decide_eq_false_2; [done|].
  intros Hne. by apply Hne.
Qed.

(** An update with another direction stores it and raises the flag. *)
Lemma parse_changed maxChannels p ch az el stored :
  0 <= ch < maxChannels -> wf maxChannels p ->
  getitem (valueList p) ch = Ok stored ->
  [az; el] <> take 2 stored ->
  exists p', parse_pose_input p ch az el = Ok p' /\
    wf maxChannels p' /\
    is_filter_update_necessary p' ch = Ok true /\
    getitem (valueList p') ch = Ok [az; el; 0; 0; 0; 0; 0; 0; 0] /\
    forall other, 0 <= other -> other <> ch ->
      is_filter_update_necessary p' other = is_filter_update_necessary p other /\
      getitem (valueList p') other = getitem (valueList p) other.
Proof.
  intros Hch (Hf & Hv & Hd) Hs Hne. unfold parse_pose_input.
  rewrite Hs. simpl. rewrite bool_decide_eq_true_2 by done.
  rewrite !setitem_in_range by lia. simpl.
  eexists. split; [reflexivity|].
  unfold wf, is_filter_update_necessary. simpl. rewrite !length_insert, Hd.
  repeat split; try done.
  - apply getitem_insert_eq. lia.
  - apply getitem_insert_eq. lia.
  - apply getitem_insert_ne; lia.
  - apply getitem_insert_ne; lia.
Qed.

(** An update of another channel leaves this channel as it is. *)
Lemma parse_other maxChannels p ch other az el :
  0 <= ch < maxChannels -> 0 <= other < maxChannels -> other <> ch ->
  wf maxChannels p ->
  exists p', parse_pose_input p other az el = Ok p' /\
    wf maxChannels p' /\
    is_filter_update_necessary p' ch = is_filter_update_necessary p ch /\
    getitem (valueList p') ch = getitem (valueList p) ch.
Proof.
  intros Hch Ho Hne Hwf.
  destruct (getitem_in_range (valueList p) other) as (stored & _ & Hs).
  { destruct Hwf as (_ & -> & _). lia. }
  destruct (decide ([az; el] = take 2 stored)) as [Heq|Hdiff].
  - exists p. by rewrite (parse_same maxChannels p other az el stored).
  - destruct (parse_changed maxChannels p other az el stored) as
      (p' & Hp & Hwf' & _ & _ & Hothers); try done.
    exists p'. destruct (Hothers ch) as [? ?]; [lia|done|]. done.
Qed.

Lemma consume_clears maxChannels p ch :
  0 <= ch < maxChannels -> wf maxChannels p ->
  exists p' stored, get_current_values p ch = Ok (p', stored) /\
    getitem (valueList p) ch = Ok stored /\
    wf maxChannels p' /\
    valueList p' = valueList p /\
    is_filter_update_necessary p' ch = Ok false.
Proof.
  intros Hch (Hf & Hv & Hd).
  destruct (getitem_in_range (valueList p) ch) as (stored & _ & Hs); [lia|].
  unfold get_current_values. rewrite setitem_in_range by lia. simpl.
  rewrite Hs. simpl. eexists _, stored. split; [reflexivity|].
  unfold wf, is_filter_update_necessary. simpl. rewrite length_insert.
  repeat split; try done. apply getitem_insert_eq. lia.
Qed.

Lemma clean_stays_clean maxChannels ch stored calls :
  0 <= ch < maxChannels ->
  Forall (keeps maxChannels ch stored) calls ->
  forall p, wf maxChannels p ->
    is_filter_update_necessary p ch = Ok false ->
    getitem (valueList p) ch = Ok stored ->
    exists p', parse_pose_inputs p calls = Ok p' /\
      wf maxChannels p' /\
      is_filter_update_necessary p' ch = Ok false /\
      getitem (valueList p') ch = Ok stored.
Proof.
  intros Hch. induction 1 as [|[[c az] el] calls [Hc Hsame] _ IH]; intros p Hwf Hclean Hs.
  - exists p. done.
  - simpl. destruct (decide (c = ch)) as [->|Hne].
    + rewrite (parse_same maxChannels p ch az el stored) by auto. simpl.
      by apply IH.
    + destruct (parse_other maxChannels p ch c az el) as (p1 & -> & Hwf1 & Hf1 & Hv1);
        try done.
      simpl. apply IH; congruence.
Qed.

End PoseTracker.

(** C9: for a channel in [0, maxChannels) the flag starts true; an update
    raises it exactly when (az, el) differs from the first two stored
    fields, and then stores (az, el) followed by zeros, while an update
    with the stored direction changes nothing; reading the pose returns
    the stored tuple and clears the flag, which then stays false over
    every run of updates that bring no other direction for the channel. *)
Theorem pose_dirty_semantics (maxChannels ch az el : Z) (p : InlinePoseParser.t) :
  0 <= ch < maxChannels ->
  InlinePoseParser.wf maxChannels p ->
  InlinePoseParser.is_filter_update_necessary (InlinePoseParser.init maxChannels) ch
    = Ok true /\
  (exists stored, getitem (InlinePoseParser.valueList p) ch = Ok stored /\
     ([az; el] = take 2 stored ->
        InlinePoseParser.parse_pose_input p ch az el = Ok p) /\
     ([az; el] <> take 2 stored ->
        exists p', InlinePoseParser.parse_pose_input p ch az el = Ok p' /\
          InlinePoseParser.is_filter_update_necessary p' ch = Ok true /\
          getitem (InlinePoseParser.valueList p') ch
            = Ok [az; el; 0; 0; 0; 0; 0; 0; 0])) /\
  (exists p' stored,
     InlinePoseParser.get_current_values p ch = Ok (p', stored) /\
     getitem (InlinePoseParser.valueList p) ch = Ok stored /\
     InlinePoseParser.is_filter_update_necessary p' ch = Ok false /\
     (forall calls, Forall (keeps maxChannels ch stored) calls ->
        exists p'', InlinePoseParser.parse_pose_inputs p' calls = Ok p'' /\
          InlinePoseParser.is_filter_update_necessary p'' ch = Ok false /\
          getitem (InlinePoseParser.valueList p'') ch = Ok stored) /\
     (forall az' el', [az'; el'] <> take 2 stored ->
        exists p'', InlinePoseParser.parse_pose_input p' ch az' el' = Ok p'' /\
          InlinePoseParser.is_filter_update_necessary p'' ch = Ok true)).
Proof.
  intros Hch Hwf. split; [apply init_dirty; lia|]. split.
  - destruct (getitem_in_range (InlinePoseParser.valueList p) ch) as (stored & _ & Hs).
    { destruct Hwf as (_ & -> & _). lia. }
    exists stored. split; [done|]. split.
    + intros Heq. by apply (parse_same maxChannels p ch az el stored).
    + intros Hne.
      destruct (parse_changed maxChannels p ch az el stored) as
        (p' & Hp & _ & Hflag & Hval & _); try done.
      by exists p'.
  - destruct (consume_clears maxChannels p ch) as
      (p' & stored & Hget & Hs & Hwf' & Hvals & Hflag); try done.
    exists p', stored. repeat split; try done.
    + intros calls Hcalls.
      destruct (clean_stays_clean maxChannels ch stored calls Hch Hcalls p')
        as (p'' & Hrun & _ & Hclean & Hstored); try done.
      { by rewrite Hvals. }
      by exists p''.
    + intros az' el' Hne.
      destruct (parse_changed maxChannels p' ch az' el' stored) as
        (p'' & Hp & _ & Hraised & _); try done.
      { by rewrite Hvals. }
      by exists p''.
Qed.

Lemma pose_dirty_semantics_witness :
  (0 <= 0 < 8 /\ InlinePoseParser.wf 8 (InlinePoseParser.init 8)) /\
  InlinePoseParser.is_filter_update_necessary (InlinePoseParser.init 8) 0 = Ok true.
Proof.
  assert (Hch : 0 <= 0 < 8) by lia.
  assert (Hwf : InlinePoseParser.wf 8 (InlinePoseParser.init 8)).
  { repeat split. }
  split; [by split|].
  exact (proj1 (pose_dirty_semantics 8 0 30 0 (InlinePoseParser.init 8) Hch Hwf)).
Defined.

(** ** The configuration reader *)

Section ConfigReader.
Context {sample cplx : Type} `{!Numeric sample cplx}.
Variable py_int : string -> result Z.
Variable py_float : string -> result sample.
Import BinSimConfig.

Lemma read_lines_app (self : t sample) (before after : list (list string)) log0 self0 :
  read_lines py_int py_float self before = Ok (log0, self0) ->
  read_lines py_int py_float self (before ++ after) =
    '(log1, self1) ← read_lines py_int py_float self0 after; Ok (log0 ++ log1, self1).
Proof.
  revert self log0 self0. induction before as [|line before IH]; intros self log0 self0.
  - simpl. intros [= <- <-]. destruct (read_lines _ _ self after) as [[? ?]|]; done.
  - simpl. destruct (read_line _ _ self line) as [[log1 self1]|e]; [|done]. simpl.
    destruct (read_lines _ _ self1 before) as [[log2 self2]|e] eqn:Hrest; [|done].
    simpl. intros [= <- <-]. rewrite (IH _ _ _ Hrest).
    destruct (read_lines _ _ self2 after) as [[log3 self3]|e]; simpl; [|done].
    by rewrite app_assoc.
Qed.

Lemma parse_boolean_other (text : string) :
  text <> "True" -> text <> "False" ->
  parse_boolean (VStr text) = (VNone : value sample).
Proof.
  intros Ht Hf. unfold parse_boolean.
  by rewrite !bool_decide_eq_false_2.
Qed.

Lemma read_line_bad_boolean (self : t sample) (key text : string) (more : list string) b :
  configurationDict self !! key = Some (VBool b) ->
  text <> "True" -> text <> "False" ->
  read_line py_int py_float self (key :: text :: more) =
    Ok ([Warning ("Cannot convert " +:+ text +:+ " to bool. (key: " +:+ key)],
        {| configurationDict := <[key := VNone]> (configurationDict self) |}).
Proof.
  intros Hkey Ht Hf. unfold read_line.
  rewrite (getitem_lookup _ 0 key), (getitem_lookup _ 1 text) by done.
  cbn [mbind result_bind Py.bind]. rewrite Hkey.
  by rewrite parse_boolean_other.
Qed.

End ConfigReader.

(** C10: when a line gives a key whose stored value is a bool a text other
    than 'True' and 'False', reading the file logs the warning and stores
    None under the key, so that [get] returns None and not the bool that
    was the default; the lines before it are read as they are. *)
Theorem bad_boolean_stores_None {sample cplx : Type} `{!Numeric sample cplx}
    (py_int : string -> result Z) (py_float : string -> result sample)
    (self self0 : BinSimConfig.t sample) (before : list (list string)) log0
    (key text : string) (more : list string) (b : bool) :
  BinSimConfig.read_from_file py_int py_float self before = Ok (log0, self0) ->
  BinSimConfig.configurationDict self0 !! key = Some (BinSimConfig.VBool b) ->
  text <> "True" -> text <> "False" ->
  exists self1,
    BinSimConfig.read_from_file py_int py_float self (before ++ [key :: text :: more])
      = Ok (log0 ++ [Warning ("Cannot convert " +:+ text +:+ " to bool. (key: " +:+ key)],
            self1) /\
    BinSimConfig.configurationDict self1 !! key = Some BinSimConfig.VNone /\
    BinSimConfig.get self1 key = Ok BinSimConfig.VNone /\
    BinSimConfig.get self1 key <> BinSimConfig.get self0 key.
Proof.
  intros Hbefore Hkey Ht Hf. unfold BinSimConfig.read_from_file in *.
  rewrite (read_lines_app _ _ _ _ _ _ _ Hbefore). simpl.
  rewrite (read_line_bad_boolean _ _ _ _ _ _ b) by done. simpl.
  eexists. split; [reflexivity|].
  unfold BinSimConfig.get. simpl. rewrite lookup_insert_eq, Hkey.
  repeat split; congruence.
Qed.

Lemma bad_boolean_stores_None_witness :
  exists self1,
    BinSimConfig.read_from_file (fun _ => Raise ValueError) (fun _ => Raise ValueError)
      (BinSimConfig.init (sample := R) (cplx := RealArith.C))
      ([["volume"; "11"]] ++ [["enableCrossfading"; "yes"]])
      = Ok ([Warning "Entry volume is unknown"] ++
            [Warning "Cannot convert yes to bool. (key: enableCrossfading"], self1) /\
    BinSimConfig.get self1 "enableCrossfading" = Ok BinSimConfig.VNone.
Proof.
  destruct (bad_boolean_stores_None (sample := R) (cplx := RealArith.C)
              (fun _ => Raise ValueError) (fun _ => Raise ValueError)
              BinSimConfig.init BinSimConfig.init [["volume"; "11"]]
              [Warning "Entry volume is unknown"] "enableCrossfading" "yes" [] false)
    as (self1 & Hread & _ & Hget & _).
  - reflexivity.
  - reflexivity.
  - discriminate.
  - discriminate.
  - exists self1. split; [exact Hread | exact Hget].
Defined.

(** ** Reasoning about calls that may raise *)

Lemma bind_Ok {A B} (a : A) (k : A -> result B) : (Ok a ≫= k) = k a.
Proof. reflexivity. Qed.

Lemma bind_Raise {A B} (e : exn) (k : A -> result B) : (Raise e ≫= k) = Raise e.
Proof. reflexivity. Qed.

Lemma bind_Ok_inv {A B} (m : result A) (k : A -> result B) (b : B) :
  (m ≫= k) = Ok b -> exists a, m = Ok a /\ k a = Ok b.
Proof. destruct m as [a|e]; [by exists a | discriminate]. Qed.

Tactic Notation "bind_inv" hyp(H) "as" simple_intropattern(a) ident(E) :=
  apply bind_Ok_inv in H; destruct H as (a & E & H).

(** ** Nearest-neighbour search *)

Section Nearest.
Import KDTree.




End Nearest.

(** ** The filter store *)

Section Store.
Context {sample cplx : Type} `{!Numeric sample cplx}.
Variable sf_read : string -> result (list (list sample)).
Import FilterStorage.

Implicit Types (s : FilterStorage.t sample cplx) (f : Filter.t sample cplx).









End Store.


(** ** Concrete stores in exact arithmetic *)

Lemma angle_0 (n M : nat) : RealArith.angle 0 n M = 0%R.
Proof. unfold RealArith.angle, Rdiv. simpl. ring. Qed.

(** Bin 0 of a frame is the sum of its samples. *)
Lemma dc_bin (x : list R) : fst (RealArith.dft_bin x 0) = RealArith.Rsum x.
Proof.
  unfold RealArith.dft_bin. simpl. f_equal.
  rewrite (imap_ext _ (const id)).
  - rewrite imap_const. apply list_fmap_id.
  - intros n xn _. rewrite angle_0, cos_0. unfold const, id. ring.
Qed.



(** ** Filters and their two forms *)

Section Filters.
Context {sample cplx : Type} `{!Numeric sample cplx}.
Implicit Types (f : Filter.t sample cplx).

Lemma init_unprepared inputfilter irBlocks block_size filename f :
  Filter.init inputfilter irBlocks block_size filename = Ok f ->
  Filter.fd_available f = false /\
  Filter.ir_blocks f = irBlocks /\ Filter.block_size f = block_size.
Proof.
  unfold Filter.init. intros Hinit.
  bind_inv Hinit as column_left Hl. bind_inv Hinit as left_blocked Hlb.
  bind_inv Hinit as column_right Hr. bind_inv Hinit as right_blocked Hrb.
  by injection Hinit as <-.
Qed.

Lemma storeInFDomain_prepared f plan f' plan' :
  Filter.storeInFDomain f plan = Ok (f', plan') ->
  Filter.fd_available f' = true /\
  Filter.IR_left_blocked f' = None /\ Filter.IR_right_blocked f' = None /\
  exists tf_left tf_right,
    Filter.getFilterFD f' = ([], (Some tf_left, Some tf_right)).
Proof.
  unfold Filter.storeInFDomain. intros Hstore.
  bind_inv Hstore as [plan1 spectra_left] Hl. bind_inv Hstore as tf_left Htl.
  bind_inv Hstore as [plan2 spectra_right] Hr. bind_inv Hstore as tf_right Htr.
  injection Hstore as <- <-. repeat split. by exists tf_left, tf_right.
Qed.

End Filters.

(** C7, as the code has it: the accessor of the frequency-domain form does
    not fail on a filter that has not been prepared; it logs a warning and
    returns two arrays of zeros of [ir_blocks] rows and [block_size + 1]
    columns. *)
Theorem getFilterFD_unprepared {sample cplx : Type} `{!Numeric sample cplx}
    (f : Filter.t sample cplx) :
  Filter.fd_available f = false ->
  Filter.getFilterFD f =
    ([Warning "FilterStorage: No frequency domain filter available!"],
     (Some (Np.zeros2 (Filter.ir_blocks f) (Filter.block_size f + 1) c_zero),
      Some (Np.zeros2 (Filter.ir_blocks f) (Filter.block_size f + 1) c_zero))).
Proof.
  intros Hfd. unfold Filter.getFilterFD. by rewrite Hfd.
Qed.

Lemma getFilterFD_unprepared_witness :
  exists f,
    Filter.init (sample := R) (cplx := RealArith.C)
      [[1%R; 0%R]; [0%R; 0%R]] 1 2 None = Ok f /\
    Filter.getFilterFD f =
      ([Warning "FilterStorage: No frequency domain filter available!"],
       (Some [[(0%R, 0%R); (0%R, 0%R); (0%R, 0%R)]],
        Some [[(0%R, 0%R); (0%R, 0%R); (0%R, 0%R)]])).
Proof.
  eexists. split; [reflexivity|].
  rewrite getFilterFD_unprepared by reflexivity. reflexivity.
Defined.

(** C7 as stated fails: a filter as the constructor leaves it, not yet
    stored in the frequency domain, gets a value from the accessor. *)
Lemma getFilterFD_returns_zeros_when_unprepared :
  exists f left_zeros right_zeros,
    Filter.init (sample := R) (cplx := RealArith.C)
      [[1%R; 0%R]; [0%R; 0%R]] 1 2 (Some "az000.wav") = Ok f /\
    Filter.fd_available f = false /\
    Filter.TF_left_blocked f = None /\
    snd (Filter.getFilterFD f) = (Some left_zeros, Some right_zeros).
Proof.
  eexists _, _, _. split; [reflexivity|]. repeat split.
Qed.

(** ** Reading impulse responses *)

Section LoadFilter.
Context {sample cplx : Type} `{!Numeric sample cplx}.
Variable sf_read : string -> result (list (list sample)).
Import FilterStorage.
Implicit Types (self : FilterStorage.t sample cplx).

Lemma concatenate0_two_columns (a : list (list sample)) k :
  Forall (fun r => length r = 2%nat) a ->
  Np.concatenate0 2 a (Np.zeros2 k 2 s_zero) = Ok (a ++ Np.zeros2 k 2 s_zero).
Proof.
  intros Ha. unfold Np.concatenate0.
  replace (forallb _ _) with true; [done|]. symmetry.
  apply forallb_forall. intros r Hr. apply Nat.eqb_eq.
  apply in_app_or in Hr as [Hr|Hr].
  - rewrite Forall_forall in Ha. apply Ha. by apply list_elem_of_In.
  - unfold Np.zeros2 in Hr. apply list_elem_of_In, elem_of_replicate in Hr as [-> _].
    by rewrite length_replicate.
Qed.

(** A directional impulse response comes out with [ir_size] frames:
    zero-extended when shorter, cut when longer. *)
Lemma load_filter_directional self path data :
  sf_read path = Ok data ->
  Forall (fun r => length r = 2%nat) data ->
  exists log out,
    load_filter sf_read self path FilterType.Filter = Ok (log, out) /\
    out = take (ir_size self)
            (data ++ Np.zeros2 (ir_size self - length data) 2 s_zero) /\
    length out = ir_size self.
Proof.
  intros Hread Hcols. unfold load_filter.
  rewrite !bool_decide_eq_true_2 by done.
  rewrite Hread. rewrite bind_Ok. cbv zeta.
  destruct (length data <? ir_size self)%nat eqn:Hshort.
  - apply Nat.ltb_lt in Hshort. unfold fill_up.
    rewrite concatenate0_two_columns by done. rewrite ?bind_Ok.
    replace (ir_size self <? length data)%nat with false
      by (symmetry; apply Nat.ltb_ge; lia).
    eexists _, _. split; [reflexivity|].
    assert (length (data ++ Np.zeros2 (ir_size self - length data) 2 s_zero)
              = ir_size self) as Hlen.
    { unfold Np.zeros2. rewrite length_app, length_replicate. lia. }
    rewrite take_ge by lia. done.
  - apply Nat.ltb_ge in Hshort. rewrite ?bind_Ok.
    replace (ir_size self - length data)%nat with 0%nat by lia.
    unfold Np.zeros2. simpl. rewrite app_nil_r.
    destruct (ir_size self <? length data)%nat eqn:Hlong.
    + apply Nat.ltb_lt in Hlong. eexists _, _. split; [reflexivity|].
      unfold shorten. split; [done|]. rewrite length_take. lia.
    + apply Nat.ltb_ge in Hlong. eexists _, _. split; [reflexivity|].
      rewrite take_ge by lia. split; [done|lia].
Qed.

(** A directivity response, read as mono frames and doubled into two
    columns, comes out with [directivitySize] frames. *)
Lemma load_filter_directivity self path frames :
  sf_read path = Ok frames ->
  Forall (fun r => length r = 1%nat) frames ->
  exists log out,
    load_filter sf_read self path FilterType.Directivity = Ok (log, out) /\
    out = take (directivitySize self)
            (map (fun row => row ++ row) frames
               ++ Np.zeros2 (directivitySize self - length frames) 2 s_zero) /\
    length out = directivitySize self.
Proof.
  intros Hread Hcols. unfold load_filter.
  rewrite (bool_decide_eq_false_2 (FilterType.Directivity <> FilterType.Directivity))
    by (intros Hne; by apply Hne).
  rewrite (bool_decide_eq_false_2 (FilterType.Directivity = FilterType.Filter)) by done.
  rewrite Hread. rewrite !bind_Ok. cbv zeta.
  rewrite length_map.
  assert (Forall (fun r => length r = 2%nat) (map (fun row : list sample => row ++ row) frames))
    as Hstacked.
  { apply Forall_map. eapply Forall_impl; [exact Hcols|].
    intros r Hr. simpl in *. rewrite length_app. lia. }
  destruct (directivitySize self <? length frames)%nat eqn:Hlong.
  - apply Nat.ltb_lt in Hlong. eexists _, _. split; [reflexivity|].
    unfold shorten. replace (directivitySize self - length frames)%nat with 0%nat by lia.
    unfold Np.zeros2. simpl. rewrite app_nil_r. split; [done|].
    rewrite length_take, length_map. lia.
  - apply Nat.ltb_ge in Hlong.
    destruct (length frames <? directivitySize self)%nat eqn:Hshort.
    + apply Nat.ltb_lt in Hshort. unfold fill_up. rewrite length_map.
      rewrite concatenate0_two_columns by done. rewrite ?bind_Ok.
      eexists _, _. split; [reflexivity|].
      assert (length (map (fun row : list sample => row ++ row) frames
                        ++ Np.zeros2 (directivitySize self - length frames) 2 s_zero)
                = directivitySize self) as Hlen.
      { unfold Np.zeros2. rewrite length_app, length_map, length_replicate. lia. }
      rewrite take_ge by lia. done.
    + apply Nat.ltb_ge in Hshort. eexists _, _. split; [reflexivity|].
      replace (directivitySize self - length frames)%nat with 0%nat by lia.
      unfold Np.zeros2. simpl. rewrite app_nil_r.
      rewrite take_ge by (rewrite length_map; lia).
      split; [done|]. rewrite length_map. lia.
Qed.

(** A late-reverb response is cut when longer than [lateReverbSize] and
    returned as read otherwise. *)
Lemma load_filter_late_reverb self path data size :
  sf_read path = Ok data ->
  lateReverbSize self = Some size ->
  exists log,
    load_filter sf_read self path FilterType.LateReverbFilter
      = Ok (log, take size data).
Proof.
  intros Hread Hsize. unfold load_filter.
  rewrite (bool_decide_eq_true_2 (FilterType.LateReverbFilter <> FilterType.Directivity))
    by done.
  rewrite (bool_decide_eq_false_2 (FilterType.LateReverbFilter = FilterType.Filter))
    by done.
  rewrite Hread. rewrite !bind_Ok. cbv zeta.
  rewrite Hsize. cbn [attr]. rewrite ?bind_Ok.
  destruct (size <? length data)%nat eqn:Hlong.
  - by eexists.
  - apply Nat.ltb_ge in Hlong. rewrite take_ge by lia. by eexists.
Qed.

End LoadFilter.

(** C6 holds for the directional and the directivity population
    ([load_filter_directional], [load_filter_directivity]); for the
    late-reverb population the code cuts a longer file and leaves a shorter
    one as it is: the frames come back unchanged, fewer than
    [lateReverbSize]. *)
Theorem late_reverb_short_file_unpadded {sample cplx : Type} `{!Numeric sample cplx}
    (sf_read : string -> result (list (list sample)))
    (self : FilterStorage.t sample cplx) (path : string)
    (data : list (list sample)) (size : nat) :
  sf_read path = Ok data ->
  FilterStorage.lateReverbSize self = Some size ->
  (length data < size)%nat ->
  exists out,
    FilterStorage.load_filter sf_read self path FilterType.LateReverbFilter
      = Ok ([], out) /\
    out = data /\ (length out < size)%nat.
Proof.
  intros Hread Hsize Hshort. exists data. split; [|done].
  unfold FilterStorage.load_filter.
  rewrite (bool_decide_eq_true_2 (FilterType.LateReverbFilter <> FilterType.Directivity))
    by done.
  rewrite (bool_decide_eq_false_2 (FilterType.LateReverbFilter = FilterType.Filter))
    by done.
  rewrite Hread. rewrite !bind_Ok. cbv zeta.
  rewrite Hsize. cbn [FilterStorage.attr]. rewrite ?bind_Ok.
  replace (size <? length data)%nat with false; [done|].
  symmetry. apply Nat.ltb_ge. lia.
Qed.

Lemma late_reverb_short_file_unpadded_witness :
  exists self,
    FilterStorage.create (cplx := RealArith.C) 4 2 false 0 true 4 4 = Ok self /\
    FilterStorage.lateReverbSize self = Some 4%nat /\
    FilterStorage.late_ir_blocks self = Some 2%nat /\
    FilterStorage.load_filter example_files self "short.wav" FilterType.LateReverbFilter
      = Ok ([], [[1%R; 0%R]; [0%R; 0%R]]) /\
    Filter.init (sample := R) (cplx := RealArith.C)
      [[1%R; 0%R]; [0%R; 0%R]] 2 2 None = Raise ValueError.
Proof.
  evar (self : FilterStorage.t R RealArith.C).
  assert (Hcreate : FilterStorage.create (cplx := RealArith.C) 4 2 false 0 true 4 4
                      = Ok self) by (unfold self; evaluate; reflexivity).
  destruct (late_reverb_short_file_unpadded example_files self "short.wav"
              [[1%R; 0%R]; [0%R; 0%R]] 4) as (out & Hload & -> & _).
  - reflexivity.
  - reflexivity.
  - simpl. lia.
  - exists self. repeat split; try done.
Defined.

(** ** The convolver *)

Section Shapes.
Context {A : Type}.
Implicit Types (a b : list (list A)) (r : list A).

Lemma shaped_zeros2 rows cols (z : A) : shaped rows cols (Np.zeros2 rows cols z).
Proof.
  unfold shaped, Np.zeros2. rewrite length_replicate. split; [done|].
  apply Forall_replicate. by rewrite length_replicate.
Qed.

Lemma shaped_forallb rows cols a :
  shaped rows cols a -> forallb (fun r => (length r =? cols)%nat) a = true.
Proof.
  intros [_ Hcols]. apply forallb_forall. intros r Hr. apply Nat.eqb_eq.
  rewrite Forall_forall in Hcols. apply Hcols. by apply list_elem_of_In.
Qed.

Lemma shaped_roll1 rows cols a : shaped rows cols a -> shaped rows cols (Np.roll1 a).
Proof.
  intros [Hlen Hcols]. unfold Np.roll1.
  destruct (length a) as [|n] eqn:Hn; [split; [congruence|done]|].
  split.
  - rewrite length_app, length_drop, length_take. lia.
  - apply Forall_app. split; [by apply Forall_drop | by apply Forall_take].
Qed.

Lemma shaped_set_head rows cols a r :
  shaped rows cols a -> (1 <= rows)%nat -> length r = cols ->
  shaped rows cols (r :: tail a).
Proof.
  intros [Hlen Hcols] Hrows Hr. destruct a as [|r0 rest]; simpl in *; [lia|].
  split; [done|]. apply Forall_cons. split; [done|]. by inversion Hcols.
Qed.

Lemma assign_rows_ok cols a lo hi rhs :
  shaped (hi - lo) cols rhs ->
  Np.assign_rows cols a lo hi rhs = Ok (take lo a ++ rhs ++ drop hi a).
Proof.
  intros Hrhs. unfold Np.assign_rows. rewrite (shaped_forallb _ _ _ Hrhs).
  destruct Hrhs as [-> _]. by rewrite Nat.eqb_refl.
Qed.

Lemma shaped_assign rows cols a lo hi rhs :
  shaped rows cols a -> shaped (hi - lo) cols rhs -> (lo <= hi <= rows)%nat ->
  shaped rows cols (take lo a ++ rhs ++ drop hi a).
Proof.
  intros [Hlen Hcols] [Hlen' Hcols'] Hrange. split.
  - rewrite !length_app, length_take, length_drop. lia.
  - apply Forall_app. split; [by apply Forall_take|].
    apply Forall_app. split; [done | by apply Forall_drop].
Qed.

End Shapes.

Lemma broadcast2_same_rows {A B C} (f : A -> B -> C) (a : list (list A)) (b : list (list B)) :
  length a = length b ->
  Np.broadcast2 f a b = Ok (zip_with (zip_with f) a b).
Proof. intros Hlen. unfold Np.broadcast2. by rewrite Hlen, Nat.eqb_refl. Qed.

Lemma shaped_zip_with {A B C} (f : A -> B -> C) rows cols
    (a : list (list A)) (b : list (list B)) :
  shaped rows cols a -> shaped rows cols b ->
  shaped rows cols (zip_with (zip_with f) a b).
Proof.
  intros [Ha Hca] [Hb Hcb]. split.
  - rewrite length_zip_with. lia.
  - apply Forall_forall. intros r Hr.
    apply elem_of_lookup_zip_with in Hr as (i & x & y & -> & Hx & Hy).
    rewrite length_zip_with.
    rewrite Forall_forall in Hca. rewrite Forall_forall in Hcb.
    rewrite (Hca x), (Hcb y); [lia| |]; by eapply list_elem_of_lookup_2.
Qed.

(** *** Sums over partitions, bin by bin *)

Section BinSums.
Context {sample cplx : Type} `{!Numeric sample cplx}.
Implicit Types (a tf fdl : list (list cplx)) (term : nat -> cplx).

Lemma partial_sum_ext term term' n :
  (forall i, (i <= n)%nat -> term i = term' i) ->
  partial_sum term n = partial_sum term' n.
Proof.
  induction n as [|n IH]; intros Hext; simpl.
  - apply Hext. lia.
  - rewrite IH, (Hext (S n)); [done|lia|]. intros i Hi. apply Hext. lia.
Qed.

Lemma bin_sum_ext T term term' :
  (forall i, (i < T)%nat -> term i = term' i) -> bin_sum T term = bin_sum T term'.
Proof.
  destruct T as [|n]; [done|]. intros Hext. simpl.
  apply partial_sum_ext. intros i Hi. apply Hext. lia.
Qed.

Lemma entry_lookup a i k r x :
  a !! i = Some r -> r !! k = Some x -> entry a i k = x.
Proof. intros Hr Hx. unfold entry. rewrite Hr. simpl. by rewrite Hx. Qed.

Lemma foldl_rows_lookup cols r0 rest k :
  Forall (fun r => length r = cols) (r0 :: rest) -> (k < cols)%nat ->
  foldl (zip_with c_add) r0 rest !! k
    = Some (partial_sum (fun i => entry (r0 :: rest) i k) (length rest)).
Proof.
  intros Hcols Hk. induction rest as [|r rest IH] using rev_ind.
  - simpl. inversion Hcols as [|? ? Hr0 _]; subst.
    destruct (lookup_lt_is_Some_2 r0 k) as [x Hx]; [lia|].
    rewrite Hx. f_equal. symmetry. by apply (entry_lookup [r0] 0 k r0).
  - rewrite foldl_app. simpl. rewrite length_app. simpl.
    rewrite Nat.add_1_r. simpl.
    assert (Forall (fun r => length r = cols) (r0 :: rest)) as Hrest.
    { rewrite app_comm_cons in Hcols. by apply Forall_app in Hcols as [? _]. }
    assert (length r = cols) as Hr.
    { rewrite app_comm_cons in Hcols. apply Forall_app in Hcols as [_ Hlast].
      by inversion Hlast. }
    rewrite lookup_zip_with, (IH Hrest). simpl.
    destruct (lookup_lt_is_Some_2 r k) as [y Hy]; [lia|].
    rewrite Hy. simpl. f_equal. f_equal.
    + apply partial_sum_ext. intros i Hi. unfold entry.
      rewrite app_comm_cons, lookup_app_l; [done|simpl; lia].
    + symmetry. apply (entry_lookup _ _ _ r); [|done].
      rewrite app_comm_cons, lookup_app_r; simpl; [|lia].
      by rewrite Nat.sub_diag.
Qed.

(** [np.sum(a, axis=0)] holds, in bin [k], the sum of column [k]. *)
Lemma sum0_lookup rows cols a k :
  shaped rows cols a -> (k < cols)%nat ->
  Np.sum0 c_add c_zero cols a !! k = Some (bin_sum rows (fun i => entry a i k)).
Proof.
  intros [Hlen Hcols] Hk. destruct a as [|r0 rest]; simpl in *.
  - subst rows. simpl. by apply lookup_replicate_2.
  - subst rows. simpl. by apply (foldl_rows_lookup cols).
Qed.

Lemma sum0_length rows cols a :
  shaped rows cols a -> length (Np.sum0 c_add c_zero cols a) = cols.
Proof.
  intros [Hlen Hcols]. destruct a as [|r0 rest]; simpl.
  - by rewrite length_replicate.
  - clear Hlen. revert r0 Hcols. induction rest as [|r rest IH]; intros r0 Hcols; simpl.
    + by inversion Hcols.
    + apply IH. inversion Hcols as [|? ? Hr0 Hrest]; subst.
      inversion Hrest as [|? ? Hr Hrest']; subst.
      apply Forall_cons. split; [|done]. rewrite length_zip_with. lia.
Qed.

Lemma entry_product rows cols tf fdl i k :
  shaped rows cols tf -> shaped rows cols fdl -> (i < rows)%nat -> (k < cols)%nat ->
  entry (zip_with (zip_with c_mul) tf fdl) i k
    = c_mul (entry tf i k) (entry fdl i k).
Proof.
  intros [Ht Hct] [Hf Hcf] Hi Hk.
  destruct (lookup_lt_is_Some_2 tf i) as [rt Hrt]; [lia|].
  destruct (lookup_lt_is_Some_2 fdl i) as [rf Hrf]; [lia|].
  assert (length rt = cols) as Hlt.
  { rewrite Forall_forall in Hct. apply Hct. by eapply list_elem_of_lookup_2. }
  assert (length rf = cols) as Hlf.
  { rewrite Forall_forall in Hcf. apply Hcf. by eapply list_elem_of_lookup_2. }
  destruct (lookup_lt_is_Some_2 rt k) as [x Hx]; [lia|].
  destruct (lookup_lt_is_Some_2 rf k) as [y Hy]; [lia|].
  rewrite (entry_lookup tf i k rt x), (entry_lookup fdl i k rf y) by done.
  apply (entry_lookup _ i k (zip_with c_mul rt rf)).
  - by rewrite lookup_zip_with, Hrt, Hrf.
  - by rewrite lookup_zip_with, Hx, Hy.
Qed.

End BinSums.

(** *** Shapes the constructor sets up and the methods keep *)

Section ConvolverShapes.
Context {sample cplx : Type} `{!Numeric sample cplx}.
Import Convolver.
Implicit Types (c : Convolver.t sample cplx).

Lemma cosine_square_window_length (N : nat) :
  length (cosine_square_window (sample := sample) N) = N.
Proof. unfold cosine_square_window. by rewrite length_fmap, length_seq. Qed.

Lemma convolver_init_wf ir_size block_size process_stereo split lateReverbSize c :
  init ir_size block_size process_stereo split lateReverbSize = Ok c ->
  (block_size <= ir_size)%nat ->
  well_shaped c.
Proof.
  unfold init. intros Hinit Hsize.
  bind_inv Hinit as late Hlate. bind_inv Hinit as blocks Hblocks.
  injection Hinit as <-.
  unfold floordiv in Hblocks.
  destruct (block_size =? 0)%nat eqn:Hzero; [discriminate|].
  apply Nat.eqb_neq in Hzero. injection Hblocks as <-.
  assert (late <= (if split then ir_size + lateReverbSize else ir_size) / block_size)%nat
    as Hle.
  { destruct split.
    - unfold floordiv in Hlate. rewrite (proj2 (Nat.eqb_neq _ _) Hzero) in Hlate.
      injection Hlate as <-. apply Nat.Div0.div_le_mono. lia.
    - injection Hlate as <-. lia. }
  constructor; simpl; try apply shaped_zeros2;
    try (unfold Np.zeros; by rewrite length_replicate).
  - transitivity (ir_size / block_size)%nat.
    + apply Nat.div_str_pos. lia.
    + destruct split; [apply Nat.Div0.div_le_mono|]; lia.
  - lia.
  - by rewrite length_rev, cosine_square_window_length.
  - apply cosine_square_window_length.
Qed.

(** *** The steps of [process] *)

Lemma next_buffer_length c buf new :
  length buf = (block_size c * 2)%nat -> length new = block_size c ->
  length (next_buffer c buf new) = (block_size c * 2)%nat.
Proof.
  intros Hbuf Hnew. unfold next_buffer.
  destruct (processCounter c =? 0)%nat;
    rewrite length_app, ?length_take, ?length_drop; lia.
Qed.

Lemma shaped_shifted c rows cols fdl : shaped rows cols fdl -> shaped rows cols (shifted c fdl).
Proof.
  intros Hfdl. unfold shifted. destruct (processCounter c =? 0)%nat; [done|].
  by apply shaped_roll1.
Qed.

Lemma set_row0_ok rows cols (fdl : list (list cplx)) spectrum :
  shaped rows cols fdl -> (1 <= rows)%nat ->
  set_row0 fdl spectrum = Ok (spectrum :: tail fdl).
Proof. intros [Hlen _] Hrows. destruct fdl; simpl in *; [lia|done]. Qed.

Lemma spectrum_length c buf :
  length buf = (block_size c * 2)%nat -> length (rfft buf) = (block_size c + 1)%nat.
Proof. intros Hbuf. rewrite rfft_length, Hbuf, Nat.div_mul by lia. done. Qed.

Lemma column_ok (frames : list (list sample)) i :
  Forall (fun r => (i < length r)%nat) frames ->
  exists col, Np.column frames i = Ok col /\ length col = length frames.
Proof.
  induction 1 as [|r rest Hr _ (col & Hcol & Hlen)]; simpl.
  - by exists [].
  - destruct (lookup_lt_is_Some_2 r i Hr) as [x ->]. rewrite Hcol.
    exists (x :: col). split; [done|]. simpl. by rewrite Hlen.
Qed.

(** Feeding a block: the buffers move on by one block, the delay lines
    by one row, and row 0 receives the spectrum of the new window. *)
Lemma fill_buffer_ok c input :
  well_shaped c -> accepts c input ->
  exists filled new_left new_right,
    fill_buffer c input = Ok filled /\
    length new_left = block_size c /\ length new_right = block_size c /\
    (forall samples, input = Mono samples -> new_left = samples) /\
    (forall frames, input = Stereo frames ->
       Np.column frames 0 = Ok new_left /\ Np.column frames 1 = Ok new_right) /\
    filled = with_input c
      (next_buffer c (buffer c) new_left)
      (if processStereo c then next_buffer c (buffer2 c) new_right else buffer2 c)
      (rfft (next_buffer c (buffer c) new_left) :: tail (shifted c (FDL_left c)))
      (rfft (if processStereo c then next_buffer c (buffer2 c) new_right
             else next_buffer c (buffer c) new_left)
         :: tail (shifted c (FDL_right c))).
Proof.
  intros Hwf Hacc. unfold accepts in Hacc. unfold fill_buffer.
  destruct (processStereo c) eqn:Hstereo, input as [samples|frames]; try done.
  - destruct Hacc as [Hlen Hcols].
    destruct (column_ok frames 0) as (left & Hleft & Hll).
    { eapply Forall_impl; [exact Hcols|]. simpl. lia. }
    destruct (column_ok frames 1) as (right & Hright & Hlr).
    { eapply Forall_impl; [exact Hcols|]. simpl. lia. }
    exists (with_input c
      (next_buffer c (buffer c) left) (next_buffer c (buffer2 c) right)
      (rfft (next_buffer c (buffer c) left) :: tail (shifted c (FDL_left c)))
      (rfft (next_buffer c (buffer2 c) right) :: tail (shifted c (FDL_right c)))),
      left, right.
    split; [|repeat split; try congruence; by intros ? [= <-]].
    unfold fill_buffer_stereo.
    replace (2 * length frames <? block_size c)%nat with false
      by (symmetry; apply Nat.ltb_ge; lia).
    cbv iota zeta.
    rewrite bind_Ok, Hleft, bind_Ok, Hlen, Nat.eqb_refl. simpl negb. cbv iota.
    rewrite Hright, bind_Ok.
    rewrite (set_row0_ok (IR_blocks c) (block_size c + 1));
      [|apply shaped_shifted, Hwf|apply Hwf].
    rewrite (set_row0_ok (IR_blocks c) (block_size c + 1));
      [|apply shaped_shifted, Hwf|apply Hwf].
    rewrite !bind_Ok. unfold next_buffer, shifted.
    by destruct (processCounter c =? 0)%nat.
  - exists (with_input c
      (next_buffer c (buffer c) samples) (buffer2 c)
      (rfft (next_buffer c (buffer c) samples) :: tail (shifted c (FDL_left c)))
      (rfft (next_buffer c (buffer c) samples) :: tail (shifted c (FDL_right c)))),
      samples, samples.
    split; [|repeat split; try congruence; by intros ? [= <-]].
    unfold fill_buffer_mono. rewrite Hacc, Nat.eqb_refl. simpl negb. cbv iota.
    cbv zeta.
    rewrite (set_row0_ok (IR_blocks c) (block_size c + 1));
      [|apply shaped_shifted, Hwf|apply Hwf].
    rewrite (set_row0_ok (IR_blocks c) (block_size c + 1));
      [|apply shaped_shifted, Hwf|apply Hwf].
    rewrite !bind_Ok. unfold next_buffer, shifted.
    by destruct (processCounter c =? 0)%nat.
Qed.

End ConvolverShapes.

Section ConvolverSteps.
Context {sample cplx : Type} `{!Numeric sample cplx}.
Import Convolver.
Implicit Types (c d : Convolver.t sample cplx).

Lemma roll1_lookup_S {A} (a : list (list A)) i :
  (S i < length a)%nat -> tail (Np.roll1 a) !! i = a !! i.
Proof.
  intros Hi. unfold Np.roll1. destruct (length a) as [|n] eqn:Hn; [lia|].
  destruct (drop n a) as [|x rest] eqn:Hdrop.
  { apply (f_equal length) in Hdrop. rewrite length_drop in Hdrop. simpl in Hdrop. lia. }
  assert (length (x :: rest) = 1%nat) as Hone by (rewrite <- Hdrop, length_drop; lia).
  destruct rest; [|simpl in Hone; lia]. simpl.
  apply lookup_take_lt. lia.
Qed.

Lemma fill_buffer_wf c input filled :
  well_shaped c -> accepts c input -> fill_buffer c input = Ok filled ->
  well_shaped filled /\
  block_size filled = block_size c /\ IR_blocks filled = IR_blocks c /\
  TF_left_blocked filled = TF_left_blocked c /\
  TF_right_blocked filled = TF_right_blocked c /\
  TF_late_left_blocked filled = TF_late_left_blocked c /\
  TF_late_right_blocked filled = TF_late_right_blocked c /\
  late_early_transition filled = late_early_transition c /\
  useSplittedFilters filled = useSplittedFilters c /\
  buildNewFilter filled = buildNewFilter c /\
  interpolate filled = interpolate c /\
  processCounter filled = processCounter c /\
  crossFadeIn filled = crossFadeIn c /\ crossFadeOut filled = crossFadeOut c /\
  resultLeftFreqPrevious filled = resultLeftFreqPrevious c /\
  resultRightFreqPrevious filled = resultRightFreqPrevious c /\
  FDL_left filled !! 0%nat = Some (rfft (buffer filled)) /\
  (processStereo c = false -> FDL_right filled !! 0%nat = Some (rfft (buffer filled))) /\
  (processStereo c = true -> FDL_right filled !! 0%nat = Some (rfft (buffer2 filled))) /\
  (forall i, processCounter c <> 0%nat -> (S i < IR_blocks c)%nat ->
     FDL_left filled !! S i = FDL_left c !! i /\
     FDL_right filled !! S i = FDL_right c !! i).
Proof.
  intros Hwf Hacc Hfill.
  destruct (fill_buffer_ok c input Hwf Hacc)
    as (filled' & new_left & new_right & Hfill' & Hl & Hr & _ & _ & ->).
  rewrite Hfill in Hfill'. injection Hfill' as ->.
  assert (length (next_buffer c (buffer c) new_left) = (block_size c * 2)%nat) as Hb1
    by (apply next_buffer_length; [apply Hwf|done]).
  assert (length (next_buffer c (buffer2 c) new_right) = (block_size c * 2)%nat) as Hb2
    by (apply next_buffer_length; [apply Hwf|done]).
  split; [|repeat match goal with |- _ /\ _ => split end; try done].
  - constructor; simpl; try apply Hwf.
    + apply shaped_set_head; [apply shaped_shifted, Hwf|apply Hwf|].
      by apply spectrum_length.
    + apply shaped_set_head; [apply shaped_shifted, Hwf|apply Hwf|].
      apply spectrum_length. by destruct (processStereo c).
    + done.
    + destruct (processStereo c); [done|apply Hwf].
  - simpl. by intros ->.
  - simpl. by intros ->.
  - intros i Hcounter Hi. simpl. unfold shifted.
    rewrite (proj2 (Nat.eqb_neq _ _) Hcounter).
    split; apply roll1_lookup_S.
    + by rewrite (proj1 (wf_FDL_left c Hwf)).
    + by rewrite (proj1 (wf_FDL_right c Hwf)).
Qed.

Lemma buildFilters_ok d :
  shaped (IR_blocks d) (block_size d + 1) (TF_left_blocked d) ->
  shaped (IR_blocks d) (block_size d + 1) (TF_right_blocked d) ->
  shaped (late_IR_blocks d) (block_size d + 1) (TF_late_left_blocked d) ->
  shaped (late_IR_blocks d) (block_size d + 1) (TF_late_right_blocked d) ->
  (late_early_transition d + late_IR_blocks d = IR_blocks d)%nat ->
  buildFilters d = Ok (rebuild d).
Proof.
  intros Hl Hr Hll Hlr Htrans. unfold buildFilters, rebuild.
  destruct (useSplittedFilters d && buildNewFilter d); [|done].
  destruct Hl as [Hlenl Hcl], Hr as [Hlenr Hcr].
  rewrite !assign_rows_ok.
  - rewrite !bind_Ok. rewrite !drop_all, !app_nil_r. done.
  - rewrite Hlenl. replace (IR_blocks d - late_early_transition d)%nat
      with (late_IR_blocks d) by lia. done.
  - rewrite Hlenr. replace (IR_blocks d - late_early_transition d)%nat
      with (late_IR_blocks d) by lia. done.
Qed.

Lemma multiply_accumulate_ok d rows (tf fdl : list (list cplx)) :
  length tf = rows -> length fdl = rows ->
  multiply_accumulate d tf fdl = Ok (accumulate (block_size d) tf fdl).
Proof.
  intros Ht Hf. unfold multiply_accumulate, accumulate.
  rewrite broadcast2_same_rows by congruence. done.
Qed.

End ConvolverSteps.

Section ConvolverProcess.
Context {sample cplx : Type} `{!Numeric sample cplx}.
Import Convolver.
Implicit Types (c d : Convolver.t sample cplx).

Lemma rebuild_fields d :
  block_size (rebuild d) = block_size d /\
  IR_blocks (rebuild d) = IR_blocks d /\
  FDL_left (rebuild d) = FDL_left d /\
  FDL_right (rebuild d) = FDL_right d /\
  TF_left_blocked_previous (rebuild d) = TF_left_blocked_previous d /\
  TF_right_blocked_previous (rebuild d) = TF_right_blocked_previous d /\
  interpolate (rebuild d) = interpolate d /\
  crossFadeIn (rebuild d) = crossFadeIn d /\
  crossFadeOut (rebuild d) = crossFadeOut d /\
  processCounter (rebuild d) = processCounter d /\
  resultLeftFreqPrevious (rebuild d) = resultLeftFreqPrevious d /\
  resultRightFreqPrevious (rebuild d) = resultRightFreqPrevious d /\
  buffer (rebuild d) = buffer d /\ buffer2 (rebuild d) = buffer2 d.
Proof. unfold rebuild. by destruct (useSplittedFilters d && buildNewFilter d). Qed.

Lemma rebuild_shaped d :
  shaped (IR_blocks d) (block_size d + 1) (TF_left_blocked d) ->
  shaped (IR_blocks d) (block_size d + 1) (TF_right_blocked d) ->
  shaped (late_IR_blocks d) (block_size d + 1) (TF_late_left_blocked d) ->
  shaped (late_IR_blocks d) (block_size d + 1) (TF_late_right_blocked d) ->
  (late_early_transition d + late_IR_blocks d = IR_blocks d)%nat ->
  shaped (IR_blocks d) (block_size d + 1) (TF_left_blocked (rebuild d)) /\
  shaped (IR_blocks d) (block_size d + 1) (TF_right_blocked (rebuild d)).
Proof.
  intros Hl Hr Hll Hlr Htrans. unfold rebuild.
  destruct (useSplittedFilters d && buildNewFilter d); [|done]. simpl.
  split.
  - destruct Hl as [Hlen Hc], Hll as [Hlen' Hc']. split.
    + rewrite length_app, length_take. lia.
    + apply Forall_app. split; [by apply Forall_take|done].
  - destruct Hr as [Hlen Hc], Hlr as [Hlen' Hc']. split.
    + rewrite length_app, length_take. lia.
    + apply Forall_app. split; [by apply Forall_take|done].
Qed.

(** The whole of [process] on a well-formed convolver. *)
Lemma process_ok c input filled :
  well_shaped c -> accepts c input -> fill_buffer c input = Ok filled ->
  let current := current_of (rebuild (saveOldFilters filled)) in
  let faded := if interpolate c then faded_of current else current in
  process c input = Ok (with_commit faded, (outputLeft faded, outputRight faded)).
Proof.
  intros Hwf Hacc Hfill.
  destruct (fill_buffer_wf c input filled Hwf Hacc Hfill)
    as (Hwf' & HN & HT & Htl & Htr & Hll & Hlr & Htrans & Hsplit & Hbuild & Hint & _).
  pose (saved := saveOldFilters filled).
  assert (buildFilters saved = Ok (rebuild saved)) as Hbuilt.
  { apply buildFilters_ok; simpl; apply Hwf'. }
  destruct (rebuild_shaped saved) as [Hsl Hsr]; try (simpl; apply Hwf').
  destruct (rebuild_fields saved)
    as (HN' & HT' & Hfl & Hfr & Hpl & Hpr & Hint' & _).
  simpl in Hsl, Hsr, HN', HT', Hfl, Hfr, Hpl, Hpr, Hint'.
  assert (convolve_current (rebuild saved) = Ok (current_of (rebuild saved))) as Hcur.
  { unfold convolve_current, current_of.
    rewrite (multiply_accumulate_ok _ (IR_blocks filled)),
            (multiply_accumulate_ok _ (IR_blocks filled)).
    all: rewrite ?bind_Ok, ?Hfl, ?Hfr;
      first [ done | exact (proj1 Hsl) | exact (proj1 Hsr)
            | exact (proj1 (wf_FDL_left _ Hwf')) | exact (proj1 (wf_FDL_right _ Hwf')) ]. }
  assert (crossfade (current_of (rebuild saved)) = Ok (faded_of (current_of (rebuild saved))))
    as Hfade.
  { unfold crossfade, faded_of. simpl.
    rewrite (multiply_accumulate_ok _ (IR_blocks filled)),
            (multiply_accumulate_ok _ (IR_blocks filled)).
    all: rewrite ?bind_Ok, ?Hfl, ?Hfr, ?Hpl, ?Hpr;
      first [ done | exact (proj1 (wf_TF_left _ Hwf')) | exact (proj1 (wf_TF_right _ Hwf'))
            | exact (proj1 (wf_FDL_left _ Hwf')) | exact (proj1 (wf_FDL_right _ Hwf')) ]. }
  unfold process. rewrite Hfill, bind_Ok. fold saved. rewrite Hbuilt, bind_Ok.
  rewrite Hcur, bind_Ok.
  change (interpolate (current_of (rebuild saved))) with (interpolate (rebuild saved)).
  rewrite Hint', Hint.
  destruct (interpolate c).
  - by rewrite Hfade, bind_Ok.
  - by rewrite bind_Ok.
Qed.

End ConvolverProcess.

Section ConvolverOutputs.
Context {sample cplx : Type} `{!Numeric sample cplx}.
Import Convolver.
Implicit Types (c d : Convolver.t sample cplx).

Lemma accumulate_lookup rows N (tf fdl : list (list cplx)) k :
  shaped rows (N + 1) tf -> shaped rows (N + 1) fdl -> (k < N + 1)%nat ->
  accumulate N tf fdl !! k
    = Some (bin_sum rows (fun i => c_mul (entry tf i k) (entry fdl i k))).
Proof.
  intros Htf Hfdl Hk. unfold accumulate.
  rewrite (sum0_lookup rows) by (by apply shaped_zip_with || done).
  f_equal. apply bin_sum_ext. intros i Hi.
  by apply (entry_product rows (N + 1)).
Qed.

Lemma accumulate_length rows N (tf fdl : list (list cplx)) :
  shaped rows (N + 1) tf -> shaped rows (N + 1) fdl ->
  length (accumulate N tf fdl) = (N + 1)%nat.
Proof.
  intros Htf Hfdl. unfold accumulate. apply (sum0_length rows).
  by apply shaped_zip_with.
Qed.

(** The second half of the inverse transform of N+1 bins is its last N
    samples, of a transform of length 2N. *)
Lemma output_block_last d (freq : list cplx) :
  length freq = (block_size d + 1)%nat ->
  length (irfft freq) = (2 * block_size d)%nat /\
  output_block d freq = drop (block_size d) (irfft freq) /\
  length (output_block d freq) = block_size d.
Proof.
  intros Hfreq.
  assert (length (irfft freq) = (2 * block_size d)%nat) as Hlen.
  { rewrite irfft_length, Hfreq. lia. }
  unfold output_block. split; [done|].
  rewrite take_ge by (rewrite length_drop; lia).
  split; [done|]. rewrite length_drop. lia.
Qed.


End ConvolverOutputs.

(** C1: on a well-formed convolver [process] accepts a block of its
    size; row 0 of the delay line then holds the spectrum of the new input
    window, every bin k < N+1 of the accumulated spectrum of an ear is the
    sum over the T partitions i of filter[i][k] times delay-line[i][k],
    its inverse transform has 2N samples, and the output block of the ear
    is the last N of them.  That block is what [process] returns when no
    crossfade is pending; with one pending it is the block that [fade]
    mixes with the block of the saved filter. *)
Theorem process_output_block {sample cplx : Type} `{!Numeric sample cplx}
    (c : Convolver.t sample cplx) (input : Convolver.block sample) :
  well_shaped c -> accepts c input ->
  exists c' filled built current out_left out_right,
    Convolver.fill_buffer c input = Ok filled /\
    Convolver.buildFilters (Convolver.saveOldFilters filled) = Ok built /\
    Convolver.convolve_current built = Ok current /\
    Convolver.process c input = Ok (c', (out_left, out_right)) /\
    Convolver.FDL_left c' !! 0%nat = Some (rfft (Convolver.buffer c')) /\
    Convolver.FDL_right c' !! 0%nat
      = Some (rfft (if Convolver.processStereo c then Convolver.buffer2 c'
                    else Convolver.buffer c')) /\
    Convolver.TF_left_blocked c' = Convolver.TF_left_blocked built /\
    Convolver.TF_right_blocked c' = Convolver.TF_right_blocked built /\
    (forall k, (k < Convolver.block_size c + 1)%nat ->
       Convolver.resultLeftFreq c' !! k
         = Some (bin_sum (Convolver.IR_blocks c)
                   (fun i => c_mul (entry (Convolver.TF_left_blocked c') i k)
                                   (entry (Convolver.FDL_left c') i k))) /\
       Convolver.resultRightFreq c' !! k
         = Some (bin_sum (Convolver.IR_blocks c)
                   (fun i => c_mul (entry (Convolver.TF_right_blocked c') i k)
                                   (entry (Convolver.FDL_right c') i k)))) /\
    length (irfft (Convolver.resultLeftFreq c')) = (2 * Convolver.block_size c)%nat /\
    length (irfft (Convolver.resultRightFreq c')) = (2 * Convolver.block_size c)%nat /\
    Convolver.outputLeft current
      = drop (Convolver.block_size c) (irfft (Convolver.resultLeftFreq c')) /\
    Convolver.outputRight current
      = drop (Convolver.block_size c) (irfft (Convolver.resultRightFreq c')) /\
    (Convolver.interpolate c = false ->
       out_left = Convolver.outputLeft current /\
       out_right = Convolver.outputRight current) /\
    (Convolver.interpolate c = true ->
       out_left = Convolver.fade current (Convolver.outputLeft current)
                    (Convolver.output_block current (Convolver.resultLeftFreqPrevious c')) /\
       out_right = Convolver.fade current (Convolver.outputRight current)
                     (Convolver.output_block current (Convolver.resultRightFreqPrevious c'))).
Proof.
  intros Hwf Hacc.
  destruct (fill_buffer_ok c input Hwf Hacc) as (filled & nl & nr & Hfill & _).
  destruct (fill_buffer_wf c input filled Hwf Hacc Hfill)
    as (Hwf' & HN & HT & Htl & Htr & Hll & Hlr & Htrans & Hsplit & Hbuild & Hint
        & _ & _ & _ & _ & _ & Hrow0 & Hmono & Hstereo & _).
  pose proof (process_ok c input filled Hwf Hacc Hfill) as Hprocess.
  cbv zeta in Hprocess.
  set (saved := Convolver.saveOldFilters filled) in *.
  assert (Convolver.buildFilters saved = Ok (rebuild saved)) as Hbuilt.
  { apply buildFilters_ok; simpl; apply Hwf'. }
  destruct (rebuild_shaped saved) as [Hsl Hsr]; try (simpl; apply Hwf').
  destruct (rebuild_fields saved)
    as (HN' & HT' & Hfl & Hfr & Hpl & Hpr & Hint' & _ & _ & _ & _ & _ & Hb1 & Hb2).
  simpl in Hsl, Hsr, HN', HT', Hfl, Hfr, Hpl, Hpr, Hint', Hb1, Hb2.
  set (built := rebuild saved) in *.
  assert (Convolver.convolve_current built = Ok (current_of built)) as Hcur.
  { unfold Convolver.convolve_current, current_of.
    rewrite (multiply_accumulate_ok _ (Convolver.IR_blocks filled)),
            (multiply_accumulate_ok _ (Convolver.IR_blocks filled)).
    all: rewrite ?bind_Ok, ?Hfl, ?Hfr;
      first [ done | exact (proj1 Hsl) | exact (proj1 Hsr)
            | exact (proj1 (wf_FDL_left _ Hwf')) | exact (proj1 (wf_FDL_right _ Hwf')) ]. }
  set (current := current_of built) in *.
  assert (length (Convolver.resultLeftFreq current) = (Convolver.block_size c + 1)%nat)
    as Hlenl.
  { simpl. rewrite HN', HN. apply (accumulate_length (Convolver.IR_blocks filled)).
    - by rewrite <- HN.
    - rewrite Hfl, <- HN. apply Hwf'. }
  assert (length (Convolver.resultRightFreq current) = (Convolver.block_size c + 1)%nat)
    as Hlenr.
  { simpl. rewrite HN', HN. apply (accumulate_length (Convolver.IR_blocks filled)).
    - by rewrite <- HN.
    - rewrite Hfr, <- HN. apply Hwf'. }
  assert (Convolver.block_size built = Convolver.block_size c) as HNb by congruence.
  destruct (output_block_last built (Convolver.resultLeftFreq current))
    as (Hil & Hol & _); [by rewrite HNb|].
  destruct (output_block_last built (Convolver.resultRightFreq current))
    as (Hir & Hor & _); [by rewrite HNb|].
  rewrite HNb in Hil, Hol, Hir, Hor.
  eexists _, filled, built, current, _, _.
  split; [done|]. split; [done|]. split; [done|]. split; [exact Hprocess|].
  assert (forall faded, faded = (if Convolver.interpolate c then faded_of current else current) ->
    Convolver.FDL_left faded = Convolver.FDL_left filled /\
    Convolver.FDL_right faded = Convolver.FDL_right filled /\
    Convolver.buffer faded = Convolver.buffer filled /\
    Convolver.buffer2 faded = Convolver.buffer2 filled /\
    Convolver.TF_left_blocked faded = Convolver.TF_left_blocked built /\
    Convolver.TF_right_blocked faded = Convolver.TF_right_blocked built /\
    Convolver.resultLeftFreq faded = Convolver.resultLeftFreq current /\
    Convolver.resultRightFreq faded = Convolver.resultRightFreq current) as Hfaded.
  { intros faded ->. destruct (Convolver.interpolate c); simpl; by rewrite Hfl, Hfr, Hb1, Hb2. }
  destruct (Hfaded _ eq_refl) as (Hf1 & Hf2 & Hf3 & Hf4 & Hf5 & Hf6 & Hf7 & Hf8).
  change (Convolver.FDL_left (Convolver.with_commit ?f)) with (Convolver.FDL_left f).
  change (Convolver.FDL_right (Convolver.with_commit ?f)) with (Convolver.FDL_right f).
  change (Convolver.buffer (Convolver.with_commit ?f)) with (Convolver.buffer f).
  change (Convolver.buffer2 (Convolver.with_commit ?f)) with (Convolver.buffer2 f).
  change (Convolver.TF_left_blocked (Convolver.with_commit ?f))
    with (Convolver.TF_left_blocked f).
  change (Convolver.TF_right_blocked (Convolver.with_commit ?f))
    with (Convolver.TF_right_blocked f).
  change (Convolver.resultLeftFreq (Convolver.with_commit ?f))
    with (Convolver.resultLeftFreq f).
  change (Convolver.resultRightFreq (Convolver.with_commit ?f))
    with (Convolver.resultRightFreq f).
  rewrite Hf1, Hf2, Hf3, Hf4, Hf5, Hf6, Hf7, Hf8.
  split; [done|]. split.
  { destruct (Convolver.processStereo c); auto. }
  split; [done|]. split; [done|]. split.
  { intros k Hk. simpl. rewrite HN', HN, Hfl, Hfr, <- HT. split.
    - apply accumulate_lookup; [by rewrite <- HN|rewrite <- HN; apply Hwf'|done].
    - apply accumulate_lookup; [by rewrite <- HN|rewrite <- HN; apply Hwf'|done]. }
  split; [done|]. split; [done|]. split; [done|]. split; [done|].
  split; intros Hflag; by rewrite Hflag.
Qed.


(** A convolver of two partitions of two samples, as constructed, and the
    same with a crossfade pending. *)
Lemma example_convolver :
  exists c,
    Convolver.init (sample := R) (cplx := RealArith.C) 4 2 false false 0 = Ok c /\
    well_shaped c /\ well_shaped (Convolver.with_flags c true false) /\
    Convolver.block_size c = 2%nat /\ Convolver.processStereo c = false /\
    Convolver.interpolate c = false.
Proof.
  eexists. split; [reflexivity|].
  assert (well_shaped (sample := R) (cplx := RealArith.C) _) as Hwf
    by (apply (convolver_init_wf 4 2 false false 0); [reflexivity|lia]).
  split; [exact Hwf|]. split; [|done].
  constructor; simpl; apply Hwf.
Qed.

Lemma process_output_block_witness :
  exists c c' out_left out_right,
    Convolver.init (sample := R) (cplx := RealArith.C) 4 2 false false 0 = Ok c /\
    Convolver.process c (Convolver.Mono [1%R; 2%R]) = Ok (c', (out_left, out_right)) /\
    out_left = drop 2 (irfft (Convolver.resultLeftFreq c')) /\
    out_right = drop 2 (irfft (Convolver.resultRightFreq c')).
Proof.
  destruct example_convolver as (c & Hinit & Hwf & _ & HN & Hmono & Hflag).
  assert (accepts c (Convolver.Mono [1%R; 2%R])) as Hacc.
  { unfold accepts. by rewrite Hmono, HN. }
  destruct (process_output_block c (Convolver.Mono [1%R; 2%R]) Hwf Hacc)
    as (c' & filled & built & current & out_left & out_right & _ & _ & _ & Hprocess
        & _ & _ & _ & _ & _ & _ & _ & Hleft & Hright & Hout & _).
  destruct (Hout Hflag) as [-> ->].
  exists c, c', (Convolver.outputLeft current), (Convolver.outputRight current).
  rewrite HN in Hleft, Hright. done.
Defined.


(** *** Handing a filter over *)

Section SetIR.
Context {sample cplx : Type} `{!Numeric sample cplx}.
Import Convolver.
Implicit Types (c : Convolver.t sample cplx) (f : Filter.t sample cplx).

(** With a directivity filter given, the front rows receive the scaled
    products and the late rows stay. *)
Lemma setIR_with_directivity c f dir tf_left tf_right dir_left dir_right flag dist :
  well_shaped c ->
  Filter.getFilterFD f = ([], (Some tf_left, Some tf_right)) ->
  Filter.getFilterFD dir = ([], (Some dir_left, Some dir_right)) ->
  shaped (late_early_transition c) (block_size c + 1) tf_left ->
  shaped (late_early_transition c) (block_size c + 1) tf_right ->
  shaped (late_early_transition c) (block_size c + 1) dir_left ->
  shaped (late_early_transition c) (block_size c + 1) dir_right ->
  exists c',
    setIR c f flag dist (PyFilter dir) = Ok ([], c') /\
    TF_left_blocked c'
      = map (map (fun z => c_scale z dist)) (zip_with (zip_with c_mul) tf_left dir_left)
          ++ drop (late_early_transition c) (TF_left_blocked c) /\
    TF_right_blocked c'
      = map (map (fun z => c_scale z dist)) (zip_with (zip_with c_mul) tf_right dir_right)
          ++ drop (late_early_transition c) (TF_right_blocked c) /\
    buildNewFilter c' = true /\ interpolate c' = flag /\ well_shaped c'.
Proof.
  intros Hwf Hf Hdir Hl Hr Hdl Hdr. unfold setIR. rewrite Hf, Hdir, bind_Ok.
  unfold scaled, operand. rewrite !bind_Ok.
  rewrite !broadcast2_same_rows, !bind_Ok
    by (destruct Hl, Hr, Hdl, Hdr; congruence).
  assert (forall a d : list (list cplx),
            shaped (late_early_transition c) (block_size c + 1) a ->
            shaped (late_early_transition c) (block_size c + 1) d ->
            shaped (late_early_transition c - 0) (block_size c + 1)
              (map (map (fun z => c_scale z dist)) (zip_with (zip_with c_mul) a d)))
    as Hscaled.
  { intros a d Ha Hd. rewrite Nat.sub_0_r.
    destruct (shaped_zip_with c_mul _ _ a d Ha Hd) as [Hlen Hcols]. split.
    - by rewrite length_map.
    - apply Forall_map. eapply Forall_impl; [exact Hcols|].
      intros r Hr'. simpl. by rewrite length_map. }
  repeat (rewrite assign_rows_ok by (by apply Hscaled); rewrite ?bind_Ok).
  eexists. split; [reflexivity|]. simpl.
  split; [done|]. split; [done|]. split; [done|]. split; [done|].
  constructor; simpl; try apply Hwf.
  - pose proof (wf_transition c Hwf).
    apply (shaped_assign (IR_blocks c) (block_size c + 1) (TF_left_blocked c)
             0 (late_early_transition c)); [apply Hwf|by apply Hscaled|lia].
  - pose proof (wf_transition c Hwf).
    apply (shaped_assign (IR_blocks c) (block_size c + 1) (TF_right_blocked c)
             0 (late_early_transition c)); [apply Hwf|by apply Hscaled|lia].
Qed.

End SetIR.

(** C4 fails on the code: with the directivity filter left at its default,
    the integer 1, [setIR] asks the integer for its frequency-domain form
    and raises AttributeError, whatever the convolver, the filter, the
    crossfade flag and the distance are. *)
Theorem setIR_default_directivity_raises {sample cplx : Type} `{!Numeric sample cplx}
    (c : Convolver.t sample cplx) (filter : Filter.t sample cplx)
    (do_interpolation : bool) (dist : sample) :
  Convolver.setIR c filter do_interpolation dist Convolver.default_dir_filter
    = Raise AttributeError.
Proof.
  unfold Convolver.setIR, Convolver.default_dir_filter.
  by destruct (Filter.getFilterFD filter) as [log [spectra_left spectra_right]].
Qed.

(** The default directivity is an integer, which has no frequency-domain
    form to give. *)
Lemma setIR_default_directivity_raises_any {sample cplx : Type} `{!Numeric sample cplx}
    (c : Convolver.t sample cplx) (filter : Filter.t sample cplx)
    (do_interpolation : bool) (dist : sample) value :
  Convolver.setIR c filter do_interpolation dist (Convolver.PyInt value)
    = Raise AttributeError.
Proof.
  unfold Convolver.setIR.
  by destruct (Filter.getFilterFD filter) as [log [spectra_left spectra_right]].
Qed.

(** ** The server loop *)

Section Server.
Context {sample cplx : Type} `{!Numeric sample cplx}.
Import BinSim.
Implicit Types (self : BinSim.t sample cplx).

(** A filter update in [process_block] calls [setIR] with two arguments,
    so it ends in the AttributeError of the default directivity. *)
Lemma process_block_update_raises self convChannel parser filterValueList log filter
    convolver enableCrossfading :
  InlinePoseParser.is_filter_update_necessary (poseParser self) convChannel = Ok true ->
  InlinePoseParser.get_current_values (poseParser self) convChannel
    = Ok (parser, filterValueList) ->
  FilterStorage.get_filter (filterStorage self) (Pose.from_filterValueList filterValueList)
    = Ok (log, filter) ->
  getitem (convolvers self) convChannel = Ok convolver ->
  BinSimConfig.get (config self) "enableCrossfading" = Ok enableCrossfading ->
  process_block self convChannel = Raise AttributeError.
Proof.
  intros Hnecessary Hvalues Hfilter Hconv Hflag. unfold process_block.
  rewrite Hnecessary, bind_Ok. cbv iota.
  rewrite Hvalues, bind_Ok, Hfilter, bind_Ok, Hconv, bind_Ok, Hflag, bind_Ok.
  unfold Convolver.default_dir_filter.
  by rewrite setIR_default_directivity_raises_any.
Qed.

(** A request whose channel is not an index of the pose lists: the lookup
    in [parse_pose_input] raises IndexError. *)
Lemma serve_channel_out_of_range self frame stereo_audio_in samples
    convChannel azimuth elevation :
  Np.reshape frame (blockSize self) (inChannels self) = Ok stereo_audio_in ->
  Np.column stereo_audio_in 0 = Ok samples ->
  int_at stereo_audio_in 0 = Ok convChannel ->
  int_at stereo_audio_in 1 = Ok azimuth ->
  int_at stereo_audio_in 2 = Ok elevation ->
  Z.of_nat (length (InlinePoseParser.valueList (poseParser self))) <= convChannel ->
  serve self (Message frame) = Raise IndexError.
Proof.
  intros Hshape Hcolumn Hch Haz Hel Hrange. unfold serve. simpl recv.
  rewrite bind_Ok, Hshape, bind_Ok, Hcolumn, bind_Ok. cbv zeta.
  rewrite Hch, bind_Ok, Haz, bind_Ok, Hel, bind_Ok.
  unfold InlinePoseParser.parse_pose_input. simpl poseParser.
  by rewrite getitem_too_large.
Qed.

Lemma run_server_idle self idle trace :
  Forall (fun ev => ev = NoMessage) idle ->
  run_server self (idle ++ trace) = run_server self trace.
Proof. induction 1 as [|ev idle -> _ IH]; [done|]. simpl. exact IH. Qed.

End Server.

Lemma Rint_IZR (z : Z) : RealArith.Rint (IZR z) = Ok z.
Proof.
  unfold RealArith.Rint. f_equal. destruct (Rle_dec 0 (IZR z)) as [Hpos|Hneg].
  - symmetry. apply Int_part_spec. lra.
  - rewrite <- opp_IZR. rewrite <- (Int_part_spec (IZR (- z)) (- z)); [lia|lra].
Qed.

(** C5, as the code has it: a request whose channel id is maxChannels or
    more makes the lookup in the pose lists raise IndexError; the handler
    of the loop passes over ZMQError only, so no reply is sent, the loop is
    left with that error, and the requests after it are not served. *)
Theorem channel_out_of_range_ends_server {sample cplx : Type} `{!Numeric sample cplx}
    (self : BinSim.t sample cplx) (frame : list sample)
    (stereo_audio_in : list (list sample)) (samples : list sample)
    (convChannel azimuth elevation : Z)
    (idle rest : list (BinSim.event sample)) :
  Np.reshape frame (BinSim.blockSize self) (BinSim.inChannels self) = Ok stereo_audio_in ->
  Np.column stereo_audio_in 0 = Ok samples ->
  BinSim.int_at stereo_audio_in 0 = Ok convChannel ->
  BinSim.int_at stereo_audio_in 1 = Ok azimuth ->
  BinSim.int_at stereo_audio_in 2 = Ok elevation ->
  InlinePoseParser.wf (BinSim.maxChannels self) (BinSim.poseParser self) ->
  BinSim.maxChannels self <= convChannel ->
  Forall (fun ev => ev = BinSim.NoMessage) idle ->
  BinSim.serve self (BinSim.Message frame) = Raise IndexError /\
  BinSim.run_server self (idle ++ BinSim.Message frame :: rest)
    = ([], BinSim.Terminated IndexError).
Proof.
  intros Hshape Hcolumn Hch Haz Hel (_ & Hvalues & _) Hrange Hidle.
  assert (BinSim.serve self (BinSim.Message frame) = Raise IndexError) as Hserve.
  { eapply serve_channel_out_of_range; eauto. lia. }
  split; [done|]. rewrite run_server_idle by done. simpl. by rewrite Hserve.
Qed.

Lemma request_channel_8_decoded :
  Np.reshape request_channel_8 4 2 = Ok [[1; 8]; [0; 30]; [0; 0]; [0; 0]]%R /\
  Np.column [[1; 8]; [0; 30]; [0; 0]; [0; 0]]%R 0 = Ok [1; 0; 0; 0]%R /\
  BinSim.int_at [[1; 8]; [0; 30]; [0; 0]; [0; 0]]%R 0 = Ok 8 /\
  BinSim.int_at [[1; 8]; [0; 30]; [0; 0]; [0; 0]]%R 1 = Ok 30 /\
  BinSim.int_at [[1; 8]; [0; 30]; [0; 0]; [0; 0]]%R 2 = Ok 0.
Proof.
  repeat split; unfold BinSim.int_at; simpl; apply Rint_IZR.
Qed.

Lemma run_server_raises {sample cplx : Type} `{!Numeric sample cplx}
    (self : BinSim.t sample cplx) ev rest e :
  BinSim.serve self ev = Raise e -> e <> ZMQError ->
  BinSim.run_server self (ev :: rest) = ([], BinSim.Terminated e).
Proof. intros Hserve Hne. simpl. rewrite Hserve. by destruct e. Qed.

Lemma example_server_parser convolver store :
  InlinePoseParser.wf (BinSim.maxChannels (example_server convolver store))
    (BinSim.poseParser (example_server convolver store)).
Proof. repeat split. Qed.

Lemma example_server_stops convolver store :
  BinSim.run_server (example_server convolver store)
    [BinSim.Message request_channel_8; BinSim.Message request_channel_0]
    = ([], BinSim.Terminated IndexError).
Proof.
  destruct request_channel_8_decoded as (Hshape & Hcolumn & Hch & Haz & Hel).
  apply run_server_raises; [|done].
  eapply serve_channel_out_of_range; eauto. simpl. lia.
Qed.

Lemma channel_out_of_range_ends_server_witness :
  exists convolver store,
    Convolver.init (sample := R) (cplx := RealArith.C) 4 4 false false 0 = Ok convolver /\
    FilterStorage.init (cplx := RealArith.C) example_files 4 4 example_list
      false 0 true 4 4 = Ok store /\
    BinSim.run_server (example_server convolver store)
      [BinSim.NoMessage; BinSim.Message request_channel_8; BinSim.Message request_channel_0]
      = ([], BinSim.Terminated IndexError).
Proof.
  assert (exists convolver,
            Convolver.init (sample := R) (cplx := RealArith.C) 4 4 false false 0
              = Ok convolver) as [convolver Hconv] by (eexists; reflexivity).
  assert (exists store,
            FilterStorage.init (cplx := RealArith.C) example_files 4 4 example_list
              false 0 true 4 4 = Ok store) as [store Hstore]
    by (eexists; evaluate; reflexivity).
  destruct request_channel_8_decoded as (Hshape & Hcolumn & Hch & Haz & Hel).
  destruct (channel_out_of_range_ends_server (example_server convolver store)
              request_channel_8 _ _ 8 30 0 [BinSim.NoMessage]
              [BinSim.Message request_channel_0] Hshape Hcolumn Hch Haz Hel
              (example_server_parser convolver store))
    as [_ Hrun].
  - simpl. lia.
  - by constructor.
  - exists convolver, store. split; [exact Hconv|]. split; [exact Hstore|]. exact Hrun.
Defined.

(** C5 as stated fails: the request for channel 8 of 8 is not dropped with
    the server carrying on; the loop ends with IndexError and the request
    for channel 0 that follows gets no reply. *)
Lemma channel_8_of_8_stops_the_server :
  exists convolver store,
    Convolver.init (sample := R) (cplx := RealArith.C) 4 4 false false 0 = Ok convolver /\
    FilterStorage.init (cplx := RealArith.C) example_files 4 4 example_list
      false 0 true 4 4 = Ok store /\
    BinSim.run_server (example_server convolver store)
      [BinSim.Message request_channel_8; BinSim.Message request_channel_0]
      = ([], BinSim.Terminated IndexError).
Proof.
  eexists _, _. split; [reflexivity|]. split; [evaluate; reflexivity|].
  apply example_server_stops.
Qed.

(** ** The crossfade windows in exact arithmetic *)

Section Windows.
Local Open Scope R_scope.





End Windows.


